(** * Acquisitions API: request admission pipeline and user endpoints

    A shallow embedding of the Express application:

    - [attachUserFromToken], [requireAuth]   (auth.middleware.js)
    - [securityMiddleware]                   (security.middleware.js)
    - [userIdSchema], [updateUserSchema]     (users.validation.js)
    - [Service.*]                            (users.service.js)
    - [Controller.*]                         (user.controller.js)
    - [Routes.router]                        (user.routes.js)

    Handlers are written in a small state-and-exception monad.  The state
    carries what the JavaScript code mutates or observes: [req.user], the
    [users] table, the clock, and the chronological list of observable
    effects (log records, provider calls, table accesses, responses and
    calls of [next]). *)

From Stdlib Require Import ZArith List String Ascii Bool Lia DecimalString DecimalPos Permutation.
Import ListNotations.
Set Warnings "-register-all".
Open Scope string_scope.
Open Scope Z_scope.

(** ** JavaScript values *)

(** The JSON-like values that appear in request bodies, log metadata and
    response bodies.  Numbers are the integers the program handles (ids,
    counts, status codes); [JDate] is a [Date], as milliseconds. *)
Inductive JsVal : Type :=
| JUndef
| JNull
| JBool (b : bool)
| JNum (n : Z)
| JStr (s : string)
| JDate (ms : Z)
| JArr (items : list JsVal)
| JObj (fields : list (string * JsVal)).

(** An [Error] object: [e.message] and the optional [e.status]. *)
Record JsError : Type := mkError {
  message : string;
  status : option Z
}.

(** [!s] for a value that is a string or [undefined]. *)
Definition falsy (s : option string) : bool :=
  match s with
  | None => true
  | Some "" => true
  | Some _ => false
  end.

(** [obj[key]]: [undefined] when the object has no such property. *)
Fixpoint obj_get (key : string) (fields : list (string * JsVal)) : JsVal :=
  match fields with
  | [] => JUndef
  | (k, v) :: rest => if String.eqb k key then v else obj_get key rest
  end.

(** [v.key]: [undefined] when [v] is not an object. *)
Definition prop (key : string) (v : JsVal) : JsVal :=
  match v with
  | JObj fields => obj_get key fields
  | _ => JUndef
  end.

Definition keys (fields : list (string * JsVal)) : list string :=
  map fst fields.

(** [`${n}`] for a number. *)
Definition num_str (n : Z) : string :=
  NilZero.string_of_int (Z.to_int n).

Definition opt_str (s : option string) : JsVal :=
  match s with
  | Some v => JStr v
  | None => JUndef
  end.

(** ** Requests, principals and the users table *)

(** The decoded identity stored in [req.user]. *)
Record Principal : Type := mkPrincipal {
  id : Z;
  email : string;
  role : string
}.

(** What [jwttoken.verify] returns: the claims signed into the token. *)
Record Payload : Type := mkPayload {
  p_id : Z;
  p_email : string;
  p_role : string;
  p_exp : Z
}.

(** The parts of [req] the handlers read.  [req.user] is assigned by the
    middleware and lives in the state. *)
Record Request : Type := mkRequest {
  cookies_token : option string;      (* req.cookies?.token *)
  authorization : option string;      (* req.get('Authorization') *)
  user_agent : option string;         (* req.get('User-Agent') *)
  ip : string;                        (* req.ip *)
  path : string;                      (* req.path *)
  params_id : option string;          (* req.params.id *)
  body : JsVal                        (* req.body *)
}.

(** A row of [pgTable('users', ...)]. *)
Record UserRow : Type := mkUser {
  u_id : Z;
  u_name : string;
  u_email : string;
  u_password : string;
  u_role : string;
  u_created_at : Z;
  u_updated_at : Z
}.

Inductive Column : Type :=
| ColId | ColName | ColEmail | ColPassword | ColRole | ColCreatedAt | ColUpdatedAt.

Definition column_value (c : Column) (r : UserRow) : JsVal :=
  match c with
  | ColId => JNum (u_id r)
  | ColName => JStr (u_name r)
  | ColEmail => JStr (u_email r)
  | ColPassword => JStr (u_password r)
  | ColRole => JStr (u_role r)
  | ColCreatedAt => JDate (u_created_at r)
  | ColUpdatedAt => JDate (u_updated_at r)
  end.

(** ** The decision provider *)

(** The object literal handed to [slidingWindow], property by property as
    the source spells them. *)
Record SlidingWindowOptions : Type := mkOptions {
  node : string;
  interval : string;
  max : option Z;       (* [None] is [undefined] *)
  nam : string
}.

(** Modelled from the spec: the type of [decision.reason] belongs to the
    provider's client library, which is not part of the sources.  The
    provider reports three reason flags, exposed as the predicate methods
    [isBot()], [isShield()] and [isRateLimit()]. *)
Record Reason : Type := mkReason {
  isBot : bool;
  isShield : bool;
  isRateLimit : bool
}.

(** Modelled from the spec: a decision is an outcome ([isDenied()]) and its
    reason flags. *)
Record Decision : Type := mkDecision {
  isDenied : bool;
  reason : Reason
}.

(** The methods a [Reason] object answers to; any other property is
    [undefined]. *)
Definition reason_method (r : Reason) (name : string) : option bool :=
  if String.eqb name "isBot" then Some (isBot r)
  else if String.eqb name "isShield" then Some (isShield r)
  else if String.eqb name "isRateLimit" then Some (isRateLimit r)
  else None.

(** ** Observable effects *)

Inductive DbOp : Type :=
| DbSelect
| DbUpdate
| DbDelete.

Inductive Event : Type :=
| LogInfo (msg : string)
| LogWarn (msg : string) (meta : list (string * JsVal))
| LogError (msg : string) (e : JsError)
| ConsoleError (msg : string) (e : JsError)
| Protect (opts : SlidingWindowOptions)     (* client.protect(req) *)
| Db (op : DbOp)                            (* a statement sent to the table *)
| Send (code : Z) (payload : JsVal)         (* res.status(code).json(payload) *)
| Next                                      (* next() *)
| NextErr (e : JsError).                    (* next(e) *)

Record World : Type := mkWorld {
  user : option Principal;         (* req.user *)
  rows : list UserRow;             (* the users table, in the order it returns its rows *)
  db_fault : option JsError;       (* the driver rejects every statement *)
  clock : Z;                       (* new Date() *)
  trace : list Event               (* effects so far, oldest first *)
}.

(** ** The handler monad *)

Inductive Result (A : Type) : Type :=
| Ok (a : A)
| Throw (e : JsError).
Arguments Ok {A} a.
Arguments Throw {A} e.

Definition M (A : Type) : Type := World -> Result A * World.

Definition ret {A} (a : A) : M A := fun w => (Ok a, w).

Definition bind {A B} (m : M A) (k : A -> M B) : M B :=
  fun w =>
    match m w with
    | (Ok a, w') => k a w'
    | (Throw e, w') => (Throw e, w')
    end.

Definition throw {A} (e : JsError) : M A := fun w => (Throw e, w).

(** [try { body } catch (e) { handler }] *)
Definition try_catch {A} (body : M A) (handler : JsError -> M A) : M A :=
  fun w =>
    match body w with
    | (Ok a, w') => (Ok a, w')
    | (Throw e, w') => handler e w'
    end.

Definition lift {A} (r : Result A) : M A := fun w => (r, w).

Definition emit (ev : Event) : M unit :=
  fun w => (Ok tt, mkWorld (user w) (rows w) (db_fault w) (clock w) (trace w ++ [ev])).

Definition get_user : M (option Principal) := fun w => (Ok (user w), w).

Definition set_user (u : option Principal) : M unit :=
  fun w => (Ok tt, mkWorld u (rows w) (db_fault w) (clock w) (trace w)).

Definition get_rows : M (list UserRow) := fun w => (Ok (rows w), w).

Definition set_rows (rs : list UserRow) : M unit :=
  fun w => (Ok tt, mkWorld (user w) rs (db_fault w) (clock w) (trace w)).

(** [new Date()] *)
Definition get_clock : M Z := fun w => (Ok (clock w), w).

(** A statement reaches the driver, which may reject it. *)
Definition statement (op : DbOp) : M unit :=
  fun w =>
    let w' := mkWorld (user w) (rows w) (db_fault w) (clock w) (trace w ++ [Db op]) in
    match db_fault w with
    | Some e => (Throw e, w')
    | None => (Ok tt, w')
    end.

Declare Scope handler_scope.
Delimit Scope handler_scope with handler.
Notation "x <- c1 ;; c2" := (bind c1 (fun x => c2))
  (at level 100, c1 at next level, right associativity) : handler_scope.
Notation "c1 ;; c2" := (bind c1 (fun _ => c2))
  (at level 100, right associativity) : handler_scope.
Open Scope handler_scope.

(** The state a handler leaves behind. *)
Definition exec {A} (m : M A) (w : World) : World := snd (m w).

(** ** Reading a trace *)

(** The effects a handler adds to the trace. *)
Definition emitted {A} (m : M A) (w : World) : list Event :=
  skipn (List.length (trace w)) (trace (exec m w)).

Definition is_next (ev : Event) : bool :=
  match ev with Next => true | _ => false end.

Definition is_warn (ev : Event) : bool :=
  match ev with LogWarn _ _ => true | _ => false end.

Definition is_protect (ev : Event) : bool :=
  match ev with Protect _ => true | _ => false end.

Definition is_db (ev : Event) : bool :=
  match ev with Db _ => true | _ => false end.

Definition count (p : Event -> bool) (t : list Event) : nat :=
  List.length (filter p t).

(** The responses sent, oldest first. *)
Fixpoint responses (t : list Event) : list (Z * JsVal) :=
  match t with
  | [] => []
  | Send c b :: rest => (c, b) :: responses rest
  | _ :: rest => responses rest
  end.

(** The rules submitted to the provider, oldest first. *)
Fixpoint queries (t : list Event) : list SlidingWindowOptions :=
  match t with
  | [] => []
  | Protect o :: rest => o :: queries rest
  | _ :: rest => queries rest
  end.

(** ** auth.middleware.js *)

Module Auth.
Section WithVerifier.

(** [jwttoken.verify(token)]: the claims, or the error it throws. *)
Variable verify : string -> Result Payload.

(** [x || ''] *)
Definition or_empty (s : option string) : string :=
  match s with
  | Some h => h
  | None => ""
  end.

(** Steps 1 and 2: the cookie, else an [Authorization: Bearer] header. *)
Definition token_of (req : Request) : option string :=
  let token := cookies_token req in
  if falsy token then
    let authHeader := or_empty (authorization req) in
    if String.prefix "Bearer " authHeader
    then Some (String.substring 7 (String.length authHeader - 7) authHeader)
    else token
  else token.

(** [req.user = undefined; return next();] *)
Definition unauthenticated : M unit :=
  set_user None ;; emit Next.

Definition attachUserFromToken (req : Request) : M unit :=
  try_catch
    (let token := token_of req in
     match token with
     | Some t =>
         if falsy token then unauthenticated
         else
           (payload <- lift (verify t) ;;
            set_user (Some (mkPrincipal (p_id payload) (p_email payload) (p_role payload))) ;;
            emit Next)
     | None => unauthenticated
     end)
    (fun e =>
       emit (LogWarn "Invalid or expired JWT token"
               [("error", JStr (message e)); ("ip", JStr (ip req)); ("path", JStr (path req))]) ;;
       set_user None ;;
       emit Next).

Definition requireAuth (req : Request) : M unit :=
  u <- get_user ;;
  match u with
  | None =>
      emit (Send 401 (JObj [("error", JStr "Unauthorized");
                            ("message", JStr "Authentication required")]))
  | Some _ => emit Next
  end.

End WithVerifier.
End Auth.

(** ** security.middleware.js *)

Module Security.
Section WithProvider.

(** [aj.withRule(rule)] followed by [client.protect(req)]: the decision,
    or the error the call fails with. *)
Variable protect : SlidingWindowOptions -> Request -> Result Decision.

(** [req.user?.role || 'guest'] *)
Definition role_of (u : option Principal) : string :=
  match u with
  | Some p => if falsy (Some (role p)) then "guest" else role p
  | None => "guest"
  end.

(** The [switch (role)]: the values of [limit] and [message] after it. *)
Definition tier (role : string) : option Z * option string :=
  if String.eqb role "admin" then
    (Some 20, Some "Admin request limit exceeded (20 per minute). Slow Down.")
  else if String.eqb role "user" then
    (Some 10, Some "User request limit exceeded (10 per minute). Slow Down.")
  else if String.eqb role "guest" then
    (Some 5, Some "Guest request limit exceeded (5 per minute). Slow Down.")
  else (None, None).

(** The argument of [slidingWindow].  The last property is a
    single-quoted string in the source, so it is not interpolated. *)
Definition rule_of (u : option Principal) : SlidingWindowOptions :=
  let role := role_of u in
  let limit := fst (tier role) in
  mkOptions "LIVE" "1m" limit "${role}-rate-limit".

(** The [TypeError] of calling a property that is [undefined]. *)
Definition not_a_function (name : string) : JsError :=
  mkError ("decision.reason." ++ name ++ " is not a function") None.

(** [decision.reason.name()] *)
Definition call_reason (r : Reason) (name : string) : M bool :=
  match reason_method r name with
  | Some b => ret b
  | None => throw (not_a_function name)
  end.

(** [decision.isDenied() && decision.reason.name()] *)
Definition denied_and (d : Decision) (name : string) : M bool :=
  if isDenied d then call_reason (reason d) name else ret false.

Definition request_meta (req : Request) : list (string * JsVal) :=
  [("ip", JStr (ip req)); ("userAgent", opt_str (user_agent req)); ("path", JStr (path req))].

Definition forbidden (msg : string) : JsVal :=
  JObj [("error", JStr "Forbidden"); ("message", JStr msg)].

Definition internal_error : JsVal :=
  JObj [("errors", JStr "Internal Server error");
        ("message", JStr "Something went wrong with security middleware")].

Definition securityMiddleware (req : Request) : M unit :=
  try_catch
    (u <- get_user ;;
     let rule := rule_of u in
     emit (Protect rule) ;;
     decision <- lift (protect rule req) ;;
     bot <- denied_and decision "isBot" ;;
     if bot then
       (emit (LogWarn "Bot request blocked" (request_meta req)) ;;
        emit (Send 403 (forbidden "Automated requests are not allowed.")))
     else
       (shield <- denied_and decision "isSheild" ;;
        if shield then
          (emit (LogWarn "Shield blocked request" (request_meta req)) ;;
           emit (Send 403 (forbidden "Request blocked by security policy.")))
        else
          (limited <- denied_and decision "isRateLimit" ;;
           if limited then
             (emit (LogWarn "Rate limit exceeded" (request_meta req)) ;;
              emit (Send 403 (forbidden "Too many requests.")))
           else emit Next)))
    (fun e =>
       emit (ConsoleError "Arcjet middleware error:" e) ;;
       emit (Send 500 internal_error)).

End WithProvider.
End Security.

(** ** users.validation.js *)

Module Validation.

(** One entry of a validation error: the offending property and the
    message the schema gives for it, if it gives one. *)
Inductive Issue : Type :=
| issue (property : string) (msg : option string).

(** The value of [schema.safeParse(x)]. *)
Inductive SafeParse (A : Type) : Type :=
| Success (data : A)
| Failure (error : list Issue).
Arguments Success {A} data.
Arguments Failure {A} error.

(** The parsed body of an update: a property is [None] when it is
    [undefined]. *)
Record Updates : Type := mkUpdates {
  name : option string;
  email : option string;
  role : option string
}.

Definition is_digit (c : ascii) : bool :=
  (48 <=? nat_of_ascii c)%nat && (nat_of_ascii c <=? 57)%nat.

Fixpoint all_digits (s : string) : bool :=
  match s with
  | EmptyString => true
  | String c rest => is_digit c && all_digits rest
  end.

(** [/^\d+$/] *)
Definition numeric (s : string) : bool :=
  negb (String.eqb s "") && all_digits s.

Fixpoint parse_digits (acc : Z) (s : string) : Z :=
  match s with
  | EmptyString => acc
  | String c rest => parse_digits (10 * acc + (Z.of_nat (nat_of_ascii c) - 48)) rest
  end.

(** The number a double holds for the integer [n]: [n] itself below 2^53,
    otherwise the nearest integer with a 53-bit significand, a tie going to
    the even significand.  Integers from 2^1024 on, which a double holds as
    [Infinity], are outside the model. *)
Definition to_double (n : Z) : Z :=
  if n <? 2 ^ 53 then n
  else
    let e := Z.log2 n - 52 in
    let q := n / 2 ^ e in
    let r := n mod 2 ^ e in
    let half := 2 ^ (e - 1) in
    if r <? half then q * 2 ^ e
    else if half <? r then (q + 1) * 2 ^ e
    else if Z.even q then q * 2 ^ e
    else (q + 1) * 2 ^ e.

(** [parseInt(val, 10)] on a string of digits: the double nearest to the
    number the digits denote. *)
Definition parseInt (s : string) : Z := to_double (parse_digits 0 s).

(** [userIdSchema.safeParse(req.params)]; the parsed [id]. *)
Definition userIdSchema (params_id : option string) : SafeParse Z :=
  match params_id with
  | None => Failure [issue "id" None]
  | Some s =>
      if numeric s then Success (parseInt s)
      else Failure [issue "id" (Some "User id must be a numeric string")]
  end.

Section WithStrings.

(** The pattern behind [z.string().email()], and the two string
    transforms of the schema. *)
Variable is_email : string -> bool.
Variable trim : string -> string.
Variable toLowerCase : string -> string.

(** [z.string().min(2).max(150).trim().optional()] *)
Definition name_field (v : JsVal) : list Issue * option string :=
  match v with
  | JUndef => ([], None)
  | JStr s =>
      if (String.length s <? 2)%nat then ([issue "name" None], None)
      else if (150 <? String.length s)%nat then ([issue "name" None], None)
      else ([], Some (trim s))
  | _ => ([issue "name" None], None)
  end.

(** [z.string().email(...).max(220).toLowerCase().trim().optional()] *)
Definition email_field (v : JsVal) : list Issue * option string :=
  match v with
  | JUndef => ([], None)
  | JStr s =>
      let bad_format :=
        if is_email s then [] else [issue "email" (Some "Invalid email address")] in
      let too_long :=
        if (220 <? String.length s)%nat then [issue "email" None] else [] in
      match (bad_format ++ too_long)%list with
      | [] => ([], Some (trim (toLowerCase s)))
      | errs => (errs, None)
      end
  | _ => ([issue "email" None], None)
  end.

(** [z.enum(["user", "admin"]).optional()] *)
Definition role_field (v : JsVal) : list Issue * option string :=
  match v with
  | JUndef => ([], None)
  | JStr s =>
      if String.eqb s "user" || String.eqb s "admin" then ([], Some s)
      else ([issue "role" None], None)
  | _ => ([issue "role" None], None)
  end.

(** The [refine] predicate: some value of the parsed object is defined. *)
Definition some_defined (u : Updates) : bool :=
  match name u, email u, role u with
  | None, None, None => false
  | _, _, _ => true
  end.

(** [updateUserSchema.safeParse(req.body)].  Unknown properties are
    dropped. *)
Definition updateUserSchema (body : JsVal) : SafeParse Updates :=
  match body with
  | JObj fields =>
      let '(e1, n) := name_field (obj_get "name" fields) in
      let '(e2, e) := email_field (obj_get "email" fields) in
      let '(e3, r) := role_field (obj_get "role" fields) in
      match (e1 ++ e2 ++ e3)%list with
      | [] =>
          let data := mkUpdates n e r in
          if some_defined data then Success data
          else Failure [issue "" (Some "At least one field must be provided for update")]
      | errs => Failure errs
      end
  | _ => Failure [issue "" None]
  end.

End WithStrings.
End Validation.

(** ** users.service.js *)

Module Service.

(** The selection object of every [select] and [returning] that yields
    users: [{ id, email, name, role, created_at, updated_at }]. *)
Definition public_columns : list (string * Column) :=
  [("id", ColId); ("email", ColEmail); ("name", ColName);
   ("role", ColRole); ("created_at", ColCreatedAt); ("updated_at", ColUpdatedAt)].

(** The object a selection builds from a row. *)
Definition select_row (sel : list (string * Column)) (r : UserRow) : JsVal :=
  JObj (map (fun kc => (fst kc, column_value (snd kc) r)) sel).

(** [.where(eq(users.id, id))].  The column is a 32-bit [serial]: the
    comparison stands for ids from -2^31 to 2^31 - 1; beyond them the
    database rejects the statement, which the model does not show. *)
Definition has_id (id : Z) (r : UserRow) : bool := u_id r =? id.

(** [const [x] = list]: the first element, or [undefined]. *)
Definition first (l : list JsVal) : JsVal := hd JUndef l.

Definition getAllUsers : M (list JsVal) :=
  try_catch
    (statement DbSelect ;;
     rs <- get_rows ;;
     ret (map (select_row public_columns) rs))
    (fun e => emit (LogError "Error getting users" e) ;; throw e).

(** [user || null]: [None] is [null]. *)
Definition getUserById (id : Z) : M (option JsVal) :=
  try_catch
    (statement DbSelect ;;
     rs <- get_rows ;;
     match map (select_row public_columns) (firstn 1 (filter (has_id id) rs)) with
     | u :: _ => ret (Some u)
     | [] => ret None
     end)
    (fun e => emit (LogError ("Error getting user by id " ++ num_str id) e) ;; throw e).

Definition not_found : JsError := mkError "User not found" (Some 404).

(** [.set({ ...updates, updated_at: new Date() })] on one row. *)
Definition set_columns (u : Validation.Updates) (now : Z) (r : UserRow) : UserRow :=
  mkUser (u_id r)
         (match Validation.name u with Some n => n | None => u_name r end)
         (match Validation.email u with Some e => e | None => u_email r end)
         (u_password r)
         (match Validation.role u with Some x => x | None => u_role r end)
         (u_created_at r)
         now.

(** The [unique] constraint on [email]: the address belongs to a row the
    statement does not touch. *)
Definition email_taken (rs : list UserRow) (id : Z) (u : Validation.Updates) : bool :=
  match Validation.email u with
  | Some e => existsb (fun r => negb (has_id id r) && String.eqb (u_email r) e) rs
  | None => false
  end.

(** Stands for the error of the driver on a constraint violation; its
    message, the failed statement and its parameters, is not modelled and
    no property depends on it. *)
Definition unique_violation : JsError :=
  mkError "Failed query" None.

(** The updated rows keep their place in the list.  The order in which
    the table returns its rows after an update is left open by the
    database; what is stated of the table afterwards does not rely on it. *)
Definition updateUser (id : Z) (updates : Validation.Updates) : M JsVal :=
  try_catch
    (statement DbSelect ;;
     rs <- get_rows ;;
     match firstn 1 (filter (has_id id) rs) with
     | [] => throw not_found
     | _ :: _ =>
         statement DbUpdate ;;
         now <- get_clock ;;
         if email_taken rs id updates then throw unique_violation
         else
           (let rs' := map (fun r => if has_id id r then set_columns updates now r else r) rs in
            set_rows rs' ;;
            ret (first (map (select_row public_columns) (filter (has_id id) rs'))))
     end)
    (fun e => emit (LogError ("Error updating user " ++ num_str id) e) ;; throw e).

Definition deleteUser (id : Z) : M JsVal :=
  try_catch
    (statement DbSelect ;;
     rs <- get_rows ;;
     match firstn 1 (filter (has_id id) rs) with
     | [] => throw not_found
     | _ :: _ =>
         statement DbDelete ;;
         set_rows (filter (fun r => negb (has_id id r)) rs) ;;
         emit (LogInfo ("User " ++ num_str id ++ " deleted successfully")) ;;
         ret (first (map (select_row public_columns) (filter (has_id id) rs)))
     end)
    (fun e => emit (LogError ("Error deleting user " ++ num_str id) e) ;; throw e).

End Service.

(** ** user.controller.js *)

Module Controller.

(** The parsed [id] of the route is written [uid] below, [id] being the
    property of [req.user]. *)

Section WithHelpers.

Variable is_email : string -> bool.
Variable trim : string -> string.
Variable toLowerCase : string -> string.

(** [formatValidationError(result.error)] *)
Variable formatValidationError : list Validation.Issue -> JsVal.

Definition validation_failed (error : list Validation.Issue) : M unit :=
  emit (Send 400 (JObj [("error", JStr "Validation failed");
                        ("details", formatValidationError error)])).

(** [requester.role === 'admin'] *)
Definition is_admin (p : Principal) : bool := String.eqb (role p) "admin".

(** [Number(requester.id) === id] *)
Definition is_self (p : Principal) (uid : Z) : bool := id p =? uid.

(** The [catch] of [updateUser] and [deleteUser]. *)
Definition not_found_or_next (e : JsError) : M unit :=
  if String.eqb (message e) "User not found"
     || match status e with Some c => c =? 404 | None => false end
  then emit (Send 404 (JObj [("error", JStr "User not found")]))
  else emit (NextErr e).

Definition fetchAllUsers (req : Request) : M unit :=
  try_catch
    (emit (LogInfo "Getting users...") ;;
     allUsers <- Service.getAllUsers ;;
     emit (Send 200 (JObj [("message", JStr "Successfully retrieved users");
                           ("users", JArr allUsers);
                           ("count", JNum (Z.of_nat (List.length allUsers)))])))
    (fun e => emit (LogError "Error fetching all users" e) ;; emit (NextErr e)).

Definition getUserById (req : Request) : M unit :=
  try_catch
    (match Validation.userIdSchema (params_id req) with
     | Validation.Failure error => validation_failed error
     | Validation.Success uid =>
         requester <- get_user ;;
         let isAdmin := match requester with Some p => is_admin p | None => false end in
         let isSelf := match requester with Some p => is_self p uid | None => false end in
         if negb isAdmin && negb isSelf then
           emit (Send 403 (JObj [("error", JStr "Forbidden");
                                 ("message", JStr "You can only access your own user information")]))
         else
           (emit (LogInfo ("Getting user by id: " ++ num_str uid)) ;;
            found <- Service.getUserById uid ;;
            match found with
            | None => emit (Send 404 (JObj [("error", JStr "User not found")]))
            | Some u =>
                emit (Send 200 (JObj [("message", JStr "Successfully retrieved user");
                                      ("user", u)]))
            end)
     end)
    (fun e => emit (LogError "Error fetching user by id" e) ;; emit (NextErr e)).

Definition updateUser (req : Request) : M unit :=
  try_catch
    (match Validation.userIdSchema (params_id req) with
     | Validation.Failure error => validation_failed error
     | Validation.Success uid =>
         match Validation.updateUserSchema is_email trim toLowerCase (body req) with
         | Validation.Failure error => validation_failed error
         | Validation.Success updates =>
             requester <- get_user ;;
             match requester with
             | None => emit (Send 401 (JObj [("error", JStr "Unauthorized")]))
             | Some p =>
                 let isAdmin := is_admin p in
                 let isSelf := is_self p uid in
                 if negb isAdmin && negb isSelf then
                   emit (Send 403 (JObj [("error", JStr "Forbidden");
                                         ("message", JStr "You can only change your own information")]))
                 else if negb isAdmin && match Validation.role updates with Some _ => true | None => false end then
                   emit (Send 403 (JObj [("error", JStr "Forbidden");
                                         ("message", JStr "Only admin users can change roles")]))
                 else
                   (emit (LogInfo ("Updating user " ++ num_str uid ++ " by requester "
                                     ++ num_str (id p))) ;;
                    updatedUser <- Service.updateUser uid updates ;;
                    emit (Send 200 (JObj [("message", JStr "User updated successfully");
                                          ("user", updatedUser)])))
             end
         end
     end)
    (fun e => emit (LogError "Error updating user" e) ;; not_found_or_next e).

Definition deleteUser (req : Request) : M unit :=
  try_catch
    (match Validation.userIdSchema (params_id req) with
     | Validation.Failure error => validation_failed error
     | Validation.Success uid =>
         requester <- get_user ;;
         match requester with
         | None => emit (Send 401 (JObj [("error", JStr "Unauthorized")]))
         | Some p =>
             let isAdmin := is_admin p in
             let isSelf := is_self p uid in
             if negb isAdmin && negb isSelf then
               emit (Send 403 (JObj [("error", JStr "Forbidden");
                                     ("message", JStr "You can only delete your own account")]))
             else
               (emit (LogInfo ("Deleting user " ++ num_str uid ++ " by requester "
                                 ++ num_str (id p))) ;;
                Service.deleteUser uid ;;
                emit (Send 200 (JObj [("message", JStr "User deleted successfully")])))
         end
     end)
    (fun e => emit (LogError "Error deleting user" e) ;; not_found_or_next e).

End WithHelpers.
End Controller.

(** ** user.routes.js *)

Module Routes.

Inductive Verb : Type := GET | PUT | DELETE.

Inductive Handler : Type :=
| RequireAuth
| FetchAllUsers
| GetUserById
| UpdateUser
| DeleteUser.

(** The routes in registration order: verb, path pattern, handlers. *)
Definition router : list (Verb * string * list Handler) :=
  [ (GET, "/", [FetchAllUsers]);
    (GET, "/:id", [RequireAuth; GetUserById]);
    (PUT, "/:id", [RequireAuth; UpdateUser]);
    (DELETE, "/:id", [RequireAuth; DeleteUser]) ].

Definition verb_eqb (a b : Verb) : bool :=
  match a, b with
  | GET, GET | PUT, PUT | DELETE, DELETE => true
  | _, _ => false
  end.

Definition is_guard (h : Handler) : bool :=
  match h with RequireAuth => true | _ => false end.

(** The handlers registered for a verb and a path pattern. *)
Fixpoint handlers_of (v : Verb) (pattern : string)
         (table : list (Verb * string * list Handler)) : option (list Handler) :=
  match table with
  | [] => None
  | (v', p', hs) :: rest =>
      if verb_eqb v v' && String.eqb pattern p' then Some hs
      else handlers_of v pattern rest
  end.

Section WithHelpers.

Variable is_email : string -> bool.
Variable trim : string -> string.
Variable toLowerCase : string -> string.
Variable formatValidationError : list Validation.Issue -> JsVal.

Definition handle (h : Handler) : Request -> M unit :=
  match h with
  | RequireAuth => Auth.requireAuth
  | FetchAllUsers => Controller.fetchAllUsers
  | GetUserById => Controller.getUserById formatValidationError
  | UpdateUser => Controller.updateUser is_email trim toLowerCase formatValidationError
  | DeleteUser => Controller.deleteUser formatValidationError
  end.

(** A handler passed control on when it called [next()]. *)
Definition called_next (before after : World) : bool :=
  (count is_next (trace before) <? count is_next (trace after))%nat.

(** The handlers of a route run in order, each one only if the one before
    it called [next()]. *)
Fixpoint run (hs : list Handler) (req : Request) : M unit :=
  match hs with
  | [] => ret tt
  | h :: rest =>
      fun w =>
        match handle h req w with
        | (Ok _, w') => if called_next w w' then run rest req w' else (Ok tt, w')
        | (Throw e, w') => (Throw e, w')
        end
  end.

Definition dispatch (v : Verb) (pattern : string) (req : Request) : M unit :=
  match handlers_of v pattern router with
  | Some hs => run hs req
  | None => ret tt
  end.

End WithHelpers.
End Routes.

(** ** app.js *)

Module App.

(** [app.use(a); app.use(b)]: [b] runs when [a] called [next()]. *)
Definition and_then (a b : M unit) : M unit :=
  fun w =>
    match a w with
    | (Ok _, w') => if Routes.called_next w w' then b w' else (Ok tt, w')
    | (Throw e, w') => (Throw e, w')
    end.

Section WithCollaborators.

Variable verify : string -> Result Payload.
Variable protect : SlidingWindowOptions -> Request -> Result Decision.
Variable is_email : string -> bool.
Variable trim : string -> string.
Variable toLowerCase : string -> string.
Variable formatValidationError : list Validation.Issue -> JsVal.

(** [app.use(attachUserFromToken); app.use(securityMiddleware);] *)
Definition admission (req : Request) : M unit :=
  and_then (Auth.attachUserFromToken verify req)
           (Security.securityMiddleware protect req).

(** A request for a route of [app.use("/api/users", userRoutes)], from the
    identity resolver on.  The body parsers and the access log that come
    before it are left out. *)
Definition users (v : Routes.Verb) (pattern : string) (req : Request) : M unit :=
  and_then (Auth.attachUserFromToken verify req)
    (and_then (Security.securityMiddleware protect req)
       (Routes.dispatch is_email trim toLowerCase formatValidationError v pattern req)).

End WithCollaborators.
End App.

(** ** Handlers only add to the trace *)

(** A computation keeps the effects recorded before it. *)
Definition extends_trace {A} (m : M A) : Prop :=
  forall w, trace (snd (m w)) = (trace w ++ emitted m w)%list.

(** A computation reads the table without changing it. *)
Definition read_only {A} (m : M A) : Prop :=
  forall w, rows (snd (m w)) = rows w.

(** ** What a response may show of a user *)

Definition public_fields : list string :=
  ["id"; "email"; "name"; "role"; "created_at"; "updated_at"].

(** A value is a user object with exactly the public properties. *)
Definition projected (v : JsVal) : Prop :=
  match v with
  | JObj fields => keys fields = public_fields
  | _ => False
  end.

(** A row with its stored password replaced by [p]. *)
Definition set_password (p : string) (r : UserRow) : UserRow :=
  mkUser (u_id r) (u_name r) (u_email r) p (u_role r) (u_created_at r) (u_updated_at r).

(** The state with every stored password replaced by [p]. *)
Definition with_passwords (p : string) (w : World) : World :=
  mkWorld (user w) (map (set_password p) (rows w)) (db_fault w) (clock w) (trace w).

(** A computation that does not look at the stored passwords: run on the
    table with other passwords it returns the same value and leaves the same
    state, passwords apart. *)
Definition password_blind {A} (m : M A) : Prop :=
  forall p w, m (with_passwords p w) = (fst (m w), with_passwords p (snd (m w))).

(** ** Sample inputs *)

Module Sample.

Definition request : Request :=
  mkRequest None None (Some "curl/8.5") "203.0.113.9" "/api/users/1" (Some "1") JUndef.

Definition world (u : option Principal) : World :=
  mkWorld u [] None 0 [].

Definition admin : Principal := mkPrincipal 1 "root@example.com" "admin".
Definition member : Principal := mkPrincipal 2 "ann@example.com" "user".
Definition moderator : Principal := mkPrincipal 3 "mod@example.com" "moderator".

Definition allow : Decision := mkDecision false (mkReason false false false).

(** A denied decision carrying the given reason flags. *)
Definition deny (bot shield limited : bool) : Decision :=
  mkDecision true (mkReason bot shield limited).

(** A provider that answers every call with [d]. *)
Definition provider (d : Decision) : SlidingWindowOptions -> Request -> Result Decision :=
  fun _ _ => Ok d.

(** A provider whose call fails. *)
Definition timeout : JsError := mkError "fetch failed: timeout" None.

Definition broken_provider : SlidingWindowOptions -> Request -> Result Decision :=
  fun _ _ => Throw timeout.

(** A request with a bearer credential, and one with none. *)
Definition bearer_request : Request :=
  mkRequest None (Some "Bearer eyJhbGciOi.expired.sig") (Some "curl/8.5")
    "203.0.113.9" "/api/users" None JUndef.

Definition expired : JsError := mkError "jwt expired" None.

(** A verifier that rejects every token. *)
Definition rejecting_verifier : string -> Result Payload :=
  fun _ => Throw expired.

Definition ann : UserRow :=
  mkUser 2 "Ann" "ann@example.com" "$2b$10$hashhashhash" "user" 1700000000000 1700000000000.

Definition bob : UserRow :=
  mkUser 5 "Bob" "bob@example.com" "$2b$10$otherhash" "user" 1700000005000 1700000005000.

Definition table : World :=
  mkWorld (Some member) [ann; bob] None 1700000999000 [].

Definition rename : Validation.Updates :=
  Validation.mkUpdates (Some "Anna") None None.

Definition claims : Payload := mkPayload 2 "ann@example.com" "user" 1700003600.

(** A verifier that accepts every token as Ann's. *)
Definition accepting_verifier : string -> Result Payload :=
  fun _ => Ok claims.

(** Stand-ins for the string helpers of the validation library. *)
Definition any_email (s : string) : bool := true.
Definition unchanged (s : string) : string := s.
Definition no_details (error : list Validation.Issue) : JsVal := JNull.

(** A request on [/:id] with the given id text and body. *)
Definition id_request (i : string) (b : JsVal) : Request :=
  mkRequest None None (Some "curl/8.5") "203.0.113.9" ("/api/users/" ++ i) (Some i) b.



Definition as_user (u : option Principal) : World :=
  mkWorld u [ann; bob] None 1700000999000 [].

(** [PUT /2] asking for a role. *)
Definition role_request (r : string) : Request :=
  mkRequest None None (Some "curl/8.5") "203.0.113.9" "/api/users/2" (Some "2")
    (JObj [("role", JStr r)]).

End Sample.

(** * Properties *)

Lemma skipn_length_app {A} (l x : list A) : skipn (List.length l) (l ++ x) = x.
Proof. induction l as [|a l IH]; simpl; [reflexivity | exact IH]. Qed.

Lemma emitted_of_trace {A} (m : M A) (w : World) (evs : list Event) :
  trace (exec m w) = (trace w ++ evs)%list -> emitted m w = evs.
Proof. intros H. unfold emitted. rewrite H. apply skipn_length_app. Qed.

(** Unfolds the monad under a handler and normalises the trace. *)
Ltac step_handler :=
  unfold exec, try_catch, bind, ret, throw, lift, emit, get_user, set_user,
    get_rows, set_rows, get_clock, statement; simpl.

(** Splits a conjunction into its parts, leaving implications alone. *)
Ltac split_all :=
  repeat match goal with |- _ /\ _ => split end.

Ltac close_trace :=
  repeat rewrite <- app_assoc; simpl; reflexivity.

(** ** The admission controller *)

Section SecurityFacts.

Variable protect : SlidingWindowOptions -> Request -> Result Decision.

(** An allowed request goes to the next handler. *)
Lemma securityMiddleware_allow (req : Request) (w : World) (d : Decision) :
  protect (Security.rule_of (user w)) req = Ok d ->
  isDenied d = false ->
  emitted (Security.securityMiddleware protect req) w =
    [Protect (Security.rule_of (user w)); Next].
Proof.
  intros Hp Hd. apply emitted_of_trace.
  unfold Security.securityMiddleware, Security.denied_and. step_handler.
  rewrite Hp, Hd. simpl. close_trace.
Qed.

(** A denial flagged as a bot is answered with 403 after a warning. *)
Lemma securityMiddleware_bot (req : Request) (w : World) (d : Decision) :
  protect (Security.rule_of (user w)) req = Ok d ->
  isDenied d = true ->
  isBot (reason d) = true ->
  emitted (Security.securityMiddleware protect req) w =
    [Protect (Security.rule_of (user w));
     LogWarn "Bot request blocked" (Security.request_meta req);
     Send 403 (Security.forbidden "Automated requests are not allowed.")].
Proof.
  intros Hp Hd Hb. apply emitted_of_trace.
  unfold Security.securityMiddleware, Security.denied_and, Security.call_reason. step_handler.
  rewrite Hp, Hd. simpl. rewrite Hb. simpl. close_trace.
Qed.

(** A denial that is not flagged as a bot reaches the call of
    [isSheild], a method the reason object does not have. *)
Lemma securityMiddleware_denied_not_bot (req : Request) (w : World) (d : Decision) :
  protect (Security.rule_of (user w)) req = Ok d ->
  isDenied d = true ->
  isBot (reason d) = false ->
  emitted (Security.securityMiddleware protect req) w =
    [Protect (Security.rule_of (user w));
     ConsoleError "Arcjet middleware error:" (Security.not_a_function "isSheild");
     Send 500 Security.internal_error].
Proof.
  intros Hp Hd Hb. apply emitted_of_trace.
  unfold Security.securityMiddleware, Security.denied_and, Security.call_reason. step_handler.
  rewrite Hp, Hd. simpl. rewrite Hb. simpl. close_trace.
Qed.

(** A failing provider call. *)
Lemma securityMiddleware_throw (req : Request) (w : World) (e : JsError) :
  protect (Security.rule_of (user w)) req = Throw e ->
  emitted (Security.securityMiddleware protect req) w =
    [Protect (Security.rule_of (user w));
     ConsoleError "Arcjet middleware error:" e;
     Send 500 Security.internal_error].
Proof.
  intros Hp. apply emitted_of_trace.
  unfold Security.securityMiddleware. step_handler.
  rewrite Hp. simpl. close_trace.
Qed.

End SecurityFacts.

(** Every run of the admission controller has one of four shapes. *)
Lemma securityMiddleware_shapes protect (req : Request) (w : World) :
  let rule := Security.rule_of (user w) in
  let evs := emitted (Security.securityMiddleware protect req) w in
  (evs = [Protect rule; Next]
   /\ exists d, protect rule req = Ok d /\ isDenied d = false)
  \/ (evs = [Protect rule;
             LogWarn "Bot request blocked" (Security.request_meta req);
             Send 403 (Security.forbidden "Automated requests are not allowed.")]
      /\ exists d, protect rule req = Ok d /\ isDenied d = true /\ isBot (reason d) = true)
  \/ (evs = [Protect rule;
             ConsoleError "Arcjet middleware error:" (Security.not_a_function "isSheild");
             Send 500 Security.internal_error]
      /\ exists d, protect rule req = Ok d /\ isDenied d = true /\ isBot (reason d) = false)
  \/ (exists e, evs = [Protect rule;
                       ConsoleError "Arcjet middleware error:" e;
                       Send 500 Security.internal_error]
                /\ protect rule req = Throw e).
Proof.
  intros rule evs. subst evs.
  destruct (protect rule req) as [d|e] eqn:Hp.
  - destruct (isDenied d) eqn:Hd.
    + destruct (isBot (reason d)) eqn:Hb.
      * right; left. split; [|exists d; auto].
        apply securityMiddleware_bot with d; assumption.
      * right; right; left. split; [|exists d; auto].
        apply securityMiddleware_denied_not_bot with d; assumption.
    + left. split; [|exists d; auto].
      apply securityMiddleware_allow with d; assumption.
  - right; right; right. exists e. split; [|reflexivity].
    apply securityMiddleware_throw; assumption.
Qed.

(** One rule is submitted per request: the rule of the principal. *)
Lemma securityMiddleware_queries protect (req : Request) (w : World) :
  queries (emitted (Security.securityMiddleware protect req) w) =
    [Security.rule_of (user w)].
Proof.
  destruct (securityMiddleware_shapes protect req w)
    as [[-> _]|[[-> _]|[[-> _]|[e [-> _]]]]]; reflexivity.
Qed.

(** C1, as amended.  The rule submitted for a request carries a one-minute
    window and the maximum of the principal's tier: 20 for role [admin], 10
    for role [user], and 5 for role [guest], for an empty role and when no
    principal is attached. *)
Theorem securityMiddleware_tier_of_role
    protect (req : Request) (rs : list UserRow) (f : option JsError)
    (clk : Z) (tr : list Event) (i : Z) (e : string) :
  let submitted u :=
    queries (emitted (Security.securityMiddleware protect req) (mkWorld u rs f clk tr)) in
  let window limit := [mkOptions "LIVE" "1m" (Some limit) "${role}-rate-limit"] in
  submitted (Some (mkPrincipal i e "admin")) = window 20
  /\ submitted (Some (mkPrincipal i e "user")) = window 10
  /\ submitted (Some (mkPrincipal i e "guest")) = window 5
  /\ submitted (Some (mkPrincipal i e "")) = window 5
  /\ submitted None = window 5.
Proof.
  cbv zeta. repeat split; rewrite securityMiddleware_queries; reflexivity.
Qed.

(** C1 fails as stated: a role other than [admin] and [user] need not get
    the guest tier.  For role [moderator] no case of the [switch] applies
    and the rule is submitted without a maximum. *)
Lemma securityMiddleware_unmapped_role :
  role Sample.moderator <> "admin"
  /\ role Sample.moderator <> "user"
  /\ queries (emitted (Security.securityMiddleware (Sample.provider Sample.allow) Sample.request)
                (Sample.world (Some Sample.moderator)))
     = [mkOptions "LIVE" "1m" None "${role}-rate-limit"]
  /\ max (Security.rule_of (Some Sample.moderator)) <> Some 5.
Proof.
  repeat split; try discriminate. 
Qed.

(** C3.  A denial for exceeding the rate limit is not answered with 403 and
    no warning is logged: the call of [isSheild] fails first and the
    request ends in the [catch] branch with status 500. *)
Theorem securityMiddleware_rate_limit_denial (req : Request) (w : World) :
  emitted (Security.securityMiddleware (Sample.provider (Sample.deny false false true)) req) w =
    [Protect (Security.rule_of (user w));
     ConsoleError "Arcjet middleware error:"
       (mkError "decision.reason.isSheild is not a function" None);
     Send 500 (JObj [("errors", JStr "Internal Server error");
                     ("message", JStr "Something went wrong with security middleware")])].
Proof.
  apply securityMiddleware_denied_not_bot with (d := Sample.deny false false true);
    reflexivity.
Qed.

(** C4.  A denial flagged by the shield and not as a bot is not reported as
    a shield denial, whatever the rate-limit flag: the response is the
    internal error. *)
Theorem securityMiddleware_shield_denial (limited : bool) (req : Request) (w : World) :
  responses
    (emitted (Security.securityMiddleware (Sample.provider (Sample.deny false true limited)) req) w)
  = [(500, Security.internal_error)]
  /\ count is_warn
       (emitted (Security.securityMiddleware (Sample.provider (Sample.deny false true limited)) req) w)
     = 0%nat.
Proof.
  rewrite securityMiddleware_denied_not_bot with (d := Sample.deny false true limited);
    try reflexivity.
  split; reflexivity.
Qed.

(** C5.  A run of the admission controller ends in exactly one of three
    ways: [next()] is called, which happens only when the provider allowed
    the request; a 403 response; or a 500 response.  For a denied decision,
    whatever its reason flags, [next()] is not called. *)
Theorem securityMiddleware_no_pass_through
    protect (req : Request) (w : World) (bot shield limited : bool) :
  let evs := emitted (Security.securityMiddleware protect req) w in
  let denied :=
    emitted (Security.securityMiddleware
               (Sample.provider (Sample.deny bot shield limited)) req) w in
  ((count is_next evs = 1%nat /\ responses evs = []
    /\ exists d, protect (Security.rule_of (user w)) req = Ok d /\ isDenied d = false)
   \/ (count is_next evs = 0%nat /\ exists b, responses evs = [(403, b)])
   \/ (count is_next evs = 0%nat /\ exists b, responses evs = [(500, b)]))
  /\ count is_next denied = 0%nat
  /\ exists c b, responses denied = [(c, b)].
Proof.
  cbv zeta. split; [|split].
  - destruct (securityMiddleware_shapes protect req w)
      as [[-> H]|[[-> _]|[[-> _]|[e [-> _]]]]].
    + left. repeat split; auto.
    + right; left. split; [reflexivity|eexists; reflexivity].
    + right; right. split; [reflexivity|eexists; reflexivity].
    + right; right. split; [reflexivity|eexists; reflexivity].
  - destruct (securityMiddleware_shapes
                (Sample.provider (Sample.deny bot shield limited)) req w)
      as [[_ [d [Hd Ha]]]|[[-> _]|[[-> _]|[e [-> _]]]]]; try reflexivity.
    inversion Hd; subst d. discriminate Ha.
  - destruct (securityMiddleware_shapes
                (Sample.provider (Sample.deny bot shield limited)) req w)
      as [[_ [d [Hd Ha]]]|[[-> _]|[[-> _]|[e [-> _]]]]];
      try (do 2 eexists; reflexivity).
    inversion Hd; subst d. discriminate Ha.
Qed.

(** C6.  When the provider call fails, the provider was called once, the
    error is written to the console as it is, the response is 500 with a
    generic message, and [next()] is not called. *)
Theorem securityMiddleware_provider_failure
    protect (req : Request) (w : World) (e : JsError) :
  protect (Security.rule_of (user w)) req = Throw e ->
  let evs := emitted (Security.securityMiddleware protect req) w in
  evs = [Protect (Security.rule_of (user w));
         ConsoleError "Arcjet middleware error:" e;
         Send 500 (JObj [("errors", JStr "Internal Server error");
                         ("message", JStr "Something went wrong with security middleware")])]
  /\ count is_protect evs = 1%nat
  /\ count is_next evs = 0%nat.
Proof.
  intros Hp evs. subst evs.
  rewrite (securityMiddleware_throw protect req w e Hp).
  repeat split.
Qed.

Lemma securityMiddleware_provider_failure_witness :
  let evs := emitted (Security.securityMiddleware Sample.broken_provider Sample.request)
               (Sample.world (Some Sample.member)) in
  evs = [Protect (mkOptions "LIVE" "1m" (Some 10) "${role}-rate-limit");
         ConsoleError "Arcjet middleware error:" Sample.timeout;
         Send 500 (JObj [("errors", JStr "Internal Server error");
                         ("message", JStr "Something went wrong with security middleware")])]
  /\ count is_protect evs = 1%nat
  /\ count is_next evs = 0%nat.
Proof.
  apply (securityMiddleware_provider_failure Sample.broken_provider Sample.request
           (Sample.world (Some Sample.member)) Sample.timeout).
  reflexivity.
Defined.

(** C7.  The rule key does not depend on the role: for every principal the
    rule is submitted under the same uninterpolated text. *)
Theorem securityMiddleware_rule_key protect (req : Request) (w : World) :
  map nam (queries (emitted (Security.securityMiddleware protect req) w)) =
    ["${role}-rate-limit"]
  /\ nam (Security.rule_of (Some Sample.admin)) = nam (Security.rule_of (Some Sample.member)).
Proof.
  rewrite securityMiddleware_queries. split; reflexivity.
Qed.

(** ** The identity resolver *)

(** A credential the verifier accepts becomes [req.user], silently. *)
Lemma attachUserFromToken_valid
    (verify : string -> Result Payload) (req : Request) (w : World)
    (t : string) (claims : Payload) :
  Auth.token_of req = Some t -> falsy (Some t) = false -> verify t = Ok claims ->
  user (exec (Auth.attachUserFromToken verify req) w)
    = Some (mkPrincipal (p_id claims) (p_email claims) (p_role claims))
  /\ emitted (Auth.attachUserFromToken verify req) w = [Next].
Proof.
  intros Ht Hf Hv. unfold emitted, Auth.attachUserFromToken. cbv zeta.
  rewrite Ht, Hf. step_handler. rewrite Hv. simpl.
  rewrite skipn_length_app. split; reflexivity.
Qed.

(** C2.  The resolver always completes, sends no response and calls
    [next()] once, touching nothing but [req.user].  Without a credential
    it leaves [req.user] undefined and logs nothing; with a credential the
    verifier rejects it logs one warning and leaves [req.user] undefined as
    well. *)
Theorem attachUserFromToken_never_rejects
    (verify : string -> Result Payload) (req : Request) (w : World) :
  let run := Auth.attachUserFromToken verify req in
  fst (run w) = Ok tt
  /\ responses (emitted run w) = []
  /\ count is_next (emitted run w) = 1%nat
  /\ rows (exec run w) = rows w
  /\ (falsy (Auth.token_of req) = true ->
      user (exec run w) = None /\ emitted run w = [Next])
  /\ (forall t e,
        Auth.token_of req = Some t -> falsy (Some t) = false -> verify t = Throw e ->
        user (exec run w) = None
        /\ emitted run w =
             [LogWarn "Invalid or expired JWT token"
                [("error", JStr (message e)); ("ip", JStr (ip req)); ("path", JStr (path req))];
              Next]).
Proof.
  unfold emitted, Auth.attachUserFromToken, Auth.unauthenticated. cbv zeta.
  destruct (Auth.token_of req) as [t|] eqn:Ht.
  - destruct (falsy (Some t)) eqn:Hf.
    + step_handler. rewrite skipn_length_app. split_all; try reflexivity.
      * intros _. split; reflexivity.
      * intros t' e' Ht' Hf'. inversion Ht'; subst t'. simpl in *. congruence.
    + destruct (verify t) as [p|e] eqn:Hv.
      * step_handler. rewrite skipn_length_app.
        split_all; try reflexivity.
        -- intros Hf'. discriminate.
        -- intros t' e' Ht' _ Hv'. inversion Ht'; subst t'. congruence.
      * step_handler. rewrite <- app_assoc, skipn_length_app.
        split_all; try reflexivity.
        -- intros Hf'. discriminate.
        -- intros t' e' Ht' _ Hv'. inversion Ht'; subst t'.
           rewrite Hv in Hv'. inversion Hv'; subst e'. split; reflexivity.
  - step_handler. rewrite skipn_length_app. split_all; try reflexivity.
    + intros _. split; reflexivity.
    + intros t' e' Ht'. discriminate.
Qed.

Lemma attachUserFromToken_never_rejects_witness :
  (user (exec (Auth.attachUserFromToken Sample.rejecting_verifier Sample.request)
           (Sample.world (Some Sample.admin))) = None
   /\ emitted (Auth.attachUserFromToken Sample.rejecting_verifier Sample.request)
        (Sample.world (Some Sample.admin)) = [Next])
  /\ (user (exec (Auth.attachUserFromToken Sample.rejecting_verifier Sample.bearer_request)
              (Sample.world (Some Sample.admin))) = None
      /\ emitted (Auth.attachUserFromToken Sample.rejecting_verifier Sample.bearer_request)
           (Sample.world (Some Sample.admin)) =
           [LogWarn "Invalid or expired JWT token"
              [("error", JStr "jwt expired"); ("ip", JStr "203.0.113.9");
               ("path", JStr "/api/users")];
            Next]).
Proof.
  split.
  - apply (attachUserFromToken_never_rejects Sample.rejecting_verifier Sample.request
             (Sample.world (Some Sample.admin))).
    reflexivity.
  - apply (proj2 (proj2 (proj2 (proj2 (proj2
             (attachUserFromToken_never_rejects Sample.rejecting_verifier
                Sample.bearer_request (Sample.world (Some Sample.admin)))))))
             "eyJhbGciOi.expired.sig" Sample.expired);
      reflexivity.
Defined.

(** ** The users service *)

Lemma select_row_projected (r : UserRow) :
  projected (Service.select_row Service.public_columns r).
Proof. reflexivity. Qed.

Lemma Forall_projected (rs : list UserRow) :
  Forall projected (map (Service.select_row Service.public_columns) rs).
Proof.
  induction rs as [|r rs IH]; simpl; constructor; auto. apply select_row_projected.
Qed.

(** The update keeps the ids, so it returns the rows it was aimed at. *)
Lemma filter_has_id_updated (uid : Z) (u : Validation.Updates) (now : Z) (rs : list UserRow) :
  filter (Service.has_id uid)
    (map (fun r => if Service.has_id uid r then Service.set_columns u now r else r) rs)
  = map (Service.set_columns u now) (filter (Service.has_id uid) rs).
Proof.
  induction rs as [|r rs IH]; simpl; [reflexivity|].
  destruct (Service.has_id uid r) eqn:Hr; simpl.
  - unfold Service.has_id in *. simpl. rewrite Hr. simpl. f_equal. exact IH.
  - rewrite Hr. exact IH.
Qed.

(** ** Stored passwords do not reach the effects *)

Lemma blind_ret {A} (a : A) : password_blind (ret a).
Proof. intros p w. reflexivity. Qed.

Lemma blind_throw {A} (e : JsError) : password_blind (@throw A e).
Proof. intros p w. reflexivity. Qed.

Lemma blind_emit (ev : Event) : password_blind (emit ev).
Proof. intros p w. reflexivity. Qed.

Lemma blind_get_user : password_blind get_user.
Proof. intros p w. reflexivity. Qed.

Lemma blind_bind {A B} (m : M A) (k : A -> M B) :
  password_blind m -> (forall a, password_blind (k a)) -> password_blind (bind m k).
Proof.
  intros Hm Hk p w. unfold bind. rewrite Hm.
  destruct (m w) as [[a|e] w']; simpl; [apply Hk | reflexivity].
Qed.

Lemma blind_try_catch {A} (m : M A) (h : JsError -> M A) :
  password_blind m -> (forall e, password_blind (h e)) -> password_blind (try_catch m h).
Proof.
  intros Hm Hh p w. unfold try_catch. rewrite Hm.
  destruct (m w) as [[a|e] w']; simpl; [reflexivity | apply Hh].
Qed.

Lemma select_set_password (p : string) (rs : list UserRow) :
  map (Service.select_row Service.public_columns) (map (set_password p) rs)
  = map (Service.select_row Service.public_columns) rs.
Proof. rewrite map_map. apply map_ext. intros r. reflexivity. Qed.

Lemma filter_set_password (f : UserRow -> bool) (p : string) (rs : list UserRow) :
  (forall r, f (set_password p r) = f r) ->
  filter f (map (set_password p) rs) = map (set_password p) (filter f rs).
Proof.
  intros Hf. induction rs as [|r rs IH]; simpl; [reflexivity|].
  rewrite Hf. destruct (f r); simpl; rewrite IH; reflexivity.
Qed.

Lemma blind_getAllUsers : password_blind Service.getAllUsers.
Proof.
  intros p w. unfold Service.getAllUsers, with_passwords. step_handler.
  destruct (db_fault w); simpl; [reflexivity|].
  rewrite select_set_password. reflexivity.
Qed.

Lemma blind_getUserById (uid : Z) : password_blind (Service.getUserById uid).
Proof.
  intros p w. unfold Service.getUserById, with_passwords. step_handler.
  destruct (db_fault w); simpl; [reflexivity|].
  rewrite filter_set_password by reflexivity.
  destruct (filter (Service.has_id uid) (rows w)) as [|r rest]; reflexivity.
Qed.

Lemma email_taken_set_password (p : string) (rs : list UserRow) (uid : Z)
    (u : Validation.Updates) :
  Service.email_taken (map (set_password p) rs) uid u = Service.email_taken rs uid u.
Proof.
  unfold Service.email_taken. destruct (Validation.email u) as [e|]; [|reflexivity].
  induction rs as [|r rs IH]; simpl; [reflexivity|]. rewrite IH. reflexivity.
Qed.

Lemma blind_updateUser (uid : Z) (u : Validation.Updates) :
  password_blind (Service.updateUser uid u).
Proof.
  intros p w. unfold Service.updateUser, with_passwords. step_handler.
  destruct (db_fault w); simpl; [reflexivity|].
  rewrite filter_set_password by reflexivity.
  destruct (filter (Service.has_id uid) (rows w)) as [|r rest] eqn:Hf; simpl; [reflexivity|].
  rewrite email_taken_set_password.
  destruct (Service.email_taken (rows w) uid u); simpl; [reflexivity|].
  rewrite !filter_has_id_updated, Hf.
  rewrite filter_set_password by reflexivity. rewrite Hf. simpl.
  f_equal. f_equal. rewrite !map_map. apply map_ext. intros x.
  unfold Service.has_id. simpl. destruct (u_id x =? uid); reflexivity.
Qed.

Lemma blind_deleteUser (uid : Z) : password_blind (Service.deleteUser uid).
Proof.
  intros p w. unfold Service.deleteUser, with_passwords. step_handler.
  destruct (db_fault w); simpl; [reflexivity|].
  rewrite filter_set_password by reflexivity.
  destruct (filter (Service.has_id uid) (rows w)) as [|r rest] eqn:Hf; simpl; [reflexivity|].
  rewrite filter_set_password by reflexivity. reflexivity.
Qed.

Ltac blind :=
  repeat first
    [ apply blind_getAllUsers | apply blind_getUserById | apply blind_updateUser
    | apply blind_deleteUser | apply blind_emit | apply blind_ret | apply blind_throw
    | apply blind_get_user | apply blind_try_catch | apply blind_bind
    | match goal with
      | |- forall _, _ => intro
      | |- password_blind (match ?x with _ => _ end) => destruct x
      | |- password_blind (if ?x then _ else _) => destruct x
      end ].

Section Blind.

Variable is_email : string -> bool.
Variable trim : string -> string.
Variable toLowerCase : string -> string.
Variable fmt : list Validation.Issue -> JsVal.

Lemma blind_handle (h : Routes.Handler) (req : Request) :
  password_blind (Routes.handle is_email trim toLowerCase fmt h req).
Proof.
  destruct h; simpl;
    unfold Auth.requireAuth, Controller.fetchAllUsers, Controller.getUserById,
      Controller.updateUser, Controller.deleteUser, Controller.validation_failed,
      Controller.not_found_or_next;
    blind.
Qed.

Lemma blind_run (hs : list Routes.Handler) (req : Request) :
  password_blind (Routes.run is_email trim toLowerCase fmt hs req).
Proof.
  induction hs as [|h hs IH]; intros p w; simpl; [reflexivity|].
  rewrite (blind_handle h req p w).
  destruct (Routes.handle is_email trim toLowerCase fmt h req w) as [[[]|e] w']; simpl;
    [|reflexivity].
  unfold Routes.called_next at 1. simpl.
  fold (Routes.called_next w w').
  destruct (Routes.called_next w w'); [apply IH | reflexivity].
Qed.

Lemma blind_dispatch (v : Routes.Verb) (pattern : string) (req : Request) :
  password_blind (Routes.dispatch is_email trim toLowerCase fmt v pattern req).
Proof.
  unfold Routes.dispatch.
  destruct (Routes.handlers_of v pattern Routes.router);
    [apply blind_run | apply blind_ret].
Qed.

End Blind.

Lemma blind_emitted {A} (m : M A) (p : string) (w : World) :
  password_blind m -> emitted m (with_passwords p w) = emitted m w.
Proof. intros H. unfold emitted, exec. rewrite H. reflexivity. Qed.

(** ** The users service: what each call does *)

Lemma filter_has_id_nil (uid : Z) (rs : list UserRow) :
  filter (Service.has_id uid) rs = [] <-> Forall (fun r => u_id r <> uid) rs.
Proof.
  induction rs as [|r rs IH]; simpl.
  - split; [constructor | reflexivity].
  - unfold Service.has_id at 1. destruct (u_id r =? uid) eqn:Hr.
    + apply Z.eqb_eq in Hr. split; [discriminate|].
      intros H. inversion H; subst. contradiction.
    + apply Z.eqb_neq in Hr. rewrite IH. split.
      * intros H. constructor; assumption.
      * intros H. inversion H; assumption.
Qed.

Lemma has_id_eq (uid : Z) (r : UserRow) :
  Service.has_id uid r = true <-> u_id r = uid.
Proof. unfold Service.has_id. apply Z.eqb_eq. Qed.

Lemma has_id_neq (uid : Z) (r : UserRow) :
  Service.has_id uid r = false <-> u_id r <> uid.
Proof. unfold Service.has_id. apply Z.eqb_neq. Qed.

Lemma filter_has_id_other (uid j : Z) (rs : list UserRow) (g : UserRow -> UserRow) :
  (forall r, u_id (g r) = u_id r) ->
  j <> uid ->
  filter (Service.has_id j) (map (fun r => if Service.has_id uid r then g r else r) rs)
  = filter (Service.has_id j) rs.
Proof.
  intros Hg Hj. induction rs as [|r rs IH]; simpl; [reflexivity|].
  rewrite IH. destruct (Service.has_id uid r) eqn:Hr; [|reflexivity].
  apply has_id_eq in Hr.
  assert (H1 : Service.has_id j (g r) = false) by (apply has_id_neq; rewrite Hg; congruence).
  assert (H2 : Service.has_id j r = false) by (apply has_id_neq; congruence).
  rewrite H1, H2. reflexivity.
Qed.

Lemma filter_has_id_removed (uid j : Z) (rs : list UserRow) :
  filter (Service.has_id j) (filter (fun r => negb (Service.has_id uid r)) rs)
  = if j =? uid then [] else filter (Service.has_id j) rs.
Proof.
  induction rs as [|r rs IH]; simpl; [destruct (j =? uid); reflexivity|].
  destruct (Service.has_id uid r) eqn:Hr; simpl.
  - rewrite IH. destruct (j =? uid) eqn:Hj; [reflexivity|].
    apply has_id_eq in Hr. apply Z.eqb_neq in Hj.
    assert (H2 : Service.has_id j r = false) by (apply has_id_neq; congruence).
    rewrite H2. reflexivity.
  - rewrite IH. destruct (Service.has_id j r) eqn:E; [|reflexivity].
    apply has_id_eq in E. apply has_id_neq in Hr.
    destruct (j =? uid) eqn:Hj; [apply Z.eqb_eq in Hj; congruence|reflexivity].
Qed.

(** What [updateUser] does on a table the driver can reach. *)
Lemma updateUser_run (uid : Z) (u : Validation.Updates) (w : World) :
  db_fault w = None ->
  Service.updateUser uid u w =
    match filter (Service.has_id uid) (rows w) with
    | [] =>
        (Throw Service.not_found,
         mkWorld (user w) (rows w) None (clock w)
           (trace w ++ [Db DbSelect;
                        LogError ("Error updating user " ++ num_str uid) Service.not_found]))
    | r :: _ =>
        if Service.email_taken (rows w) uid u then
          (Throw Service.unique_violation,
           mkWorld (user w) (rows w) None (clock w)
             (trace w ++ [Db DbSelect; Db DbUpdate;
                          LogError ("Error updating user " ++ num_str uid)
                            Service.unique_violation]))
        else
          (Ok (Service.select_row Service.public_columns (Service.set_columns u (clock w) r)),
           mkWorld (user w)
             (map (fun x => if Service.has_id uid x
                            then Service.set_columns u (clock w) x else x) (rows w))
             None (clock w) (trace w ++ [Db DbSelect; Db DbUpdate]))
    end.
Proof.
  intros Hf. unfold Service.updateUser. step_handler. rewrite Hf. simpl.
  destruct (filter (Service.has_id uid) (rows w)) as [|r rest] eqn:Hr; simpl.
  - rewrite <- app_assoc. reflexivity.
  - rewrite ?Hf. simpl.
    destruct (Service.email_taken (rows w) uid u); simpl.
    + repeat rewrite <- app_assoc. reflexivity.
    + rewrite filter_has_id_updated, Hr. repeat rewrite <- app_assoc. reflexivity.
Qed.

(** What [deleteUser] does on a table the driver can reach. *)
Lemma deleteUser_run (uid : Z) (w : World) :
  db_fault w = None ->
  Service.deleteUser uid w =
    match filter (Service.has_id uid) (rows w) with
    | [] =>
        (Throw Service.not_found,
         mkWorld (user w) (rows w) None (clock w)
           (trace w ++ [Db DbSelect;
                        LogError ("Error deleting user " ++ num_str uid) Service.not_found]))
    | r :: _ =>
        (Ok (Service.select_row Service.public_columns r),
         mkWorld (user w) (filter (fun x => negb (Service.has_id uid x)) (rows w))
           None (clock w)
           (trace w ++ [Db DbSelect; Db DbDelete;
                        LogInfo ("User " ++ num_str uid ++ " deleted successfully")]))
    end.
Proof.
  intros Hf. unfold Service.deleteUser. step_handler. rewrite Hf. simpl.
  destruct (filter (Service.has_id uid) (rows w)) as [|r rest] eqn:Hr; simpl.
  - rewrite <- app_assoc. reflexivity.
  - rewrite ?Hf. simpl. repeat rewrite <- app_assoc. reflexivity.
Qed.

(** What [getUserById] does on a table the driver can reach. *)
Lemma getUserById_run (uid : Z) (w : World) :
  db_fault w = None ->
  Service.getUserById uid w =
    (Ok (match filter (Service.has_id uid) (rows w) with
         | [] => None
         | r :: _ => Some (Service.select_row Service.public_columns r)
         end),
     mkWorld (user w) (rows w) None (clock w) (trace w ++ [Db DbSelect])).
Proof.
  intros Hf. unfold Service.getUserById. step_handler. rewrite Hf. simpl.
  destruct (filter (Service.has_id uid) (rows w)); reflexivity.
Qed.

(** A statement the driver rejects leaves the table as it was. *)
Lemma service_fault (uid : Z) (u : Validation.Updates) (w : World) (e : JsError) :
  db_fault w = Some e ->
  rows (snd (Service.updateUser uid u w)) = rows w
  /\ rows (snd (Service.deleteUser uid w)) = rows w
  /\ fst (Service.updateUser uid u w) = Throw e
  /\ fst (Service.deleteUser uid w) = Throw e
  /\ fst (Service.getUserById uid w) = Throw e
  /\ fst (Service.getAllUsers w) = Throw e.
Proof.
  intros Hf.
  unfold Service.updateUser, Service.deleteUser, Service.getUserById, Service.getAllUsers.
  step_handler. rewrite Hf. simpl. split_all; reflexivity.
Qed.

(** C9.  Whatever [getAllUsers], [getUserById], [updateUser] and
    [deleteUser] return is the projection of stored rows onto exactly the
    properties [id], [email], [name], [role], [created_at] and
    [updated_at], each with the value of its own column; there is no
    [password] among them, what the four functions return is the same
    whatever passwords the table stores, and so is what a user route logs
    and responds. *)
Theorem service_results_projected (uid : Z) (updates : Validation.Updates) (w : World) :
  (forall us w', Service.getAllUsers w = (Ok us, w') -> Forall projected us)
  /\ (forall u w', Service.getUserById uid w = (Ok (Some u), w') -> projected u)
  /\ (forall u w', Service.updateUser uid updates w = (Ok u, w') -> projected u)
  /\ (forall u w', Service.deleteUser uid w = (Ok u, w') -> projected u)
  /\ ~ In "password" public_fields
  /\ (forall is_email trim toLowerCase fmt v pattern req p,
        emitted (Routes.dispatch is_email trim toLowerCase fmt v pattern req)
          (with_passwords p w)
        = emitted (Routes.dispatch is_email trim toLowerCase fmt v pattern req) w)
  /\ (let view r :=
        JObj [("id", JNum (u_id r)); ("email", JStr (u_email r));
              ("name", JStr (u_name r)); ("role", JStr (u_role r));
              ("created_at", JDate (u_created_at r));
              ("updated_at", JDate (u_updated_at r))] in
      (forall us w', Service.getAllUsers w = (Ok us, w') -> us = map view (rows w))
      /\ (forall u w', Service.getUserById uid w = (Ok (Some u), w') ->
                       exists r, In r (rows w) /\ u_id r = uid /\ u = view r)
      /\ (forall u w', Service.updateUser uid updates w = (Ok u, w') ->
                       exists r, In r (rows w') /\ u_id r = uid /\ u = view r)
      /\ (forall u w', Service.deleteUser uid w = (Ok u, w') ->
                       exists r, In r (rows w) /\ u_id r = uid /\ u = view r))
  /\ (forall p,
        fst (Service.getAllUsers (with_passwords p w)) = fst (Service.getAllUsers w)
        /\ fst (Service.getUserById uid (with_passwords p w))
           = fst (Service.getUserById uid w)
        /\ fst (Service.updateUser uid updates (with_passwords p w))
           = fst (Service.updateUser uid updates w)
        /\ fst (Service.deleteUser uid (with_passwords p w))
           = fst (Service.deleteUser uid w)).
Proof.
  split_all.
  - unfold Service.getAllUsers. step_handler.
    destruct (db_fault w); simpl; intros us w' H; inversion H; subst.
    apply Forall_projected.
  - unfold Service.getUserById. step_handler.
    destruct (db_fault w); simpl; [intros u w' H; inversion H|].
    destruct (filter (Service.has_id uid) (rows w)) as [|r rest]; simpl;
      intros u w' H; inversion H; subst.
    apply select_row_projected.
  - unfold Service.updateUser. step_handler.
    destruct (db_fault w); simpl; [intros u w' H; inversion H|].
    destruct (filter (Service.has_id uid) (rows w)) as [|r rest] eqn:Hf; simpl;
      [intros u w' H; inversion H|].
    destruct (Service.email_taken (rows w) uid updates); simpl;
      intros u w' H; inversion H; subst.
    rewrite filter_has_id_updated, Hf. apply select_row_projected.
  - unfold Service.deleteUser. step_handler.
    destruct (db_fault w); simpl; [intros u w' H; inversion H|].
    destruct (filter (Service.has_id uid) (rows w)) as [|r rest] eqn:Hf; simpl;
      intros u w' H; inversion H; subst.
    apply select_row_projected.
  - unfold public_fields. simpl. intros H.
    repeat (destruct H as [H|H]; [discriminate H|]). exact H.
  - intros is_email trim toLowerCase fmt v pattern req p.
    apply blind_emitted, blind_dispatch.
  - cbv zeta. split_all.
    + unfold Service.getAllUsers. step_handler.
      destruct (db_fault w); simpl; intros us w' H; inversion H; subst.
      apply map_ext. intros r. reflexivity.
    + intros u w' H. destruct (db_fault w) as [e|] eqn:Hf.
      { destruct (service_fault uid updates w e Hf) as [_ [_ [_ [_ [Hg _]]]]].
        rewrite H in Hg. discriminate. }
      rewrite (getUserById_run uid w Hf) in H.
      destruct (filter (Service.has_id uid) (rows w)) as [|r rest] eqn:Hr; [discriminate|].
      assert (Hin : In r (filter (Service.has_id uid) (rows w)))
        by (rewrite Hr; left; reflexivity).
      apply filter_In in Hin. destruct Hin as [Hin Hid]. apply has_id_eq in Hid.
      exists r. inversion H. split_all; auto.
    + intros u w' H. destruct (db_fault w) as [e|] eqn:Hf.
      { destruct (service_fault uid updates w e Hf) as [_ [_ [Hu _]]].
        rewrite H in Hu. discriminate. }
      rewrite (updateUser_run uid updates w Hf) in H.
      destruct (filter (Service.has_id uid) (rows w)) as [|r rest] eqn:Hr; [discriminate|].
      destruct (Service.email_taken (rows w) uid updates); [discriminate|].
      inversion H; subst u w'. clear H.
      assert (Hin : In r (filter (Service.has_id uid) (rows w)))
        by (rewrite Hr; left; reflexivity).
      apply filter_In in Hin. destruct Hin as [Hin Hid].
      exists (Service.set_columns updates (clock w) r). split_all.
      * simpl. apply in_map_iff. exists r. rewrite Hid. split; [reflexivity|exact Hin].
      * apply has_id_eq in Hid. exact Hid.
      * reflexivity.
    + intros u w' H. destruct (db_fault w) as [e|] eqn:Hf.
      { destruct (service_fault uid updates w e Hf) as [_ [_ [_ [Hd _]]]].
        rewrite H in Hd. discriminate. }
      rewrite (deleteUser_run uid w Hf) in H.
      destruct (filter (Service.has_id uid) (rows w)) as [|r rest] eqn:Hr; [discriminate|].
      assert (Hin : In r (filter (Service.has_id uid) (rows w)))
        by (rewrite Hr; left; reflexivity).
      apply filter_In in Hin. destruct Hin as [Hin Hid]. apply has_id_eq in Hid.
      exists r. inversion H. split_all; auto.
  - intros p.
    rewrite (blind_getAllUsers p w), (blind_getUserById uid p w),
      (blind_updateUser uid updates p w), (blind_deleteUser uid p w).
    split_all; reflexivity.
Qed.

Lemma service_results_projected_witness :
  Forall projected
    [JObj [("id", JNum 2); ("email", JStr "ann@example.com"); ("name", JStr "Ann");
           ("role", JStr "user"); ("created_at", JDate 1700000000000);
           ("updated_at", JDate 1700000000000)];
     JObj [("id", JNum 5); ("email", JStr "bob@example.com"); ("name", JStr "Bob");
           ("role", JStr "user"); ("created_at", JDate 1700000005000);
           ("updated_at", JDate 1700000005000)]]
  /\ projected
       (JObj [("id", JNum 5); ("email", JStr "bob@example.com"); ("name", JStr "Bob");
              ("role", JStr "user"); ("created_at", JDate 1700000005000);
              ("updated_at", JDate 1700000005000)])
  /\ projected
       (JObj [("id", JNum 2); ("email", JStr "ann@example.com"); ("name", JStr "Anna");
              ("role", JStr "user"); ("created_at", JDate 1700000000000);
              ("updated_at", JDate 1700000999000)])
  /\ projected
       (JObj [("id", JNum 2); ("email", JStr "ann@example.com"); ("name", JStr "Ann");
              ("role", JStr "user"); ("created_at", JDate 1700000000000);
              ("updated_at", JDate 1700000000000)]).
Proof.
  split; [|split; [|split]].
  - eapply (proj1 (service_results_projected 2 Sample.rename Sample.table)).
    reflexivity.
  - eapply (proj1 (proj2 (service_results_projected 5 Sample.rename Sample.table))).
    reflexivity.
  - eapply (proj1 (proj2 (proj2 (service_results_projected 2 Sample.rename Sample.table)))).
    reflexivity.
  - eapply (proj1 (proj2 (proj2 (proj2 (service_results_projected 2 Sample.rename Sample.table))))).
    reflexivity.
Defined.

(** ** The user routes *)

(** A route with one handler runs that handler. *)
Lemma run_single is_email trim toLowerCase fmt (h : Routes.Handler) (req : Request) (w : World) :
  fst (Routes.handle is_email trim toLowerCase fmt h req w) = Ok tt ->
  Routes.run is_email trim toLowerCase fmt [h] req w =
    Routes.handle is_email trim toLowerCase fmt h req w.
Proof.
  simpl. destruct (Routes.handle is_email trim toLowerCase fmt h req w) as [[[]|e] w'];
    simpl; intros H; [|discriminate H].
  destruct (Routes.called_next w w'); reflexivity.
Qed.

(** What [fetchAllUsers] does, for any request and any principal. *)
Lemma fetchAllUsers_trace (req : Request) (w : World) :
  fst (Controller.fetchAllUsers req w) = Ok tt
  /\ emitted (Controller.fetchAllUsers req) w =
       match db_fault w with
       | None =>
           [LogInfo "Getting users..."; Db DbSelect;
            Send 200 (JObj [("message", JStr "Successfully retrieved users");
                            ("users", JArr (map (Service.select_row Service.public_columns) (rows w)));
                            ("count", JNum (Z.of_nat (List.length (rows w))))])]
       | Some e =>
           [LogInfo "Getting users..."; Db DbSelect;
            LogError "Error getting users" e;
            LogError "Error fetching all users" e;
            NextErr e]
       end.
Proof.
  unfold emitted, Controller.fetchAllUsers, Service.getAllUsers. step_handler.
  destruct (db_fault w); simpl; split; try reflexivity.
  - repeat rewrite <- app_assoc. apply skipn_length_app.
  - rewrite length_map. repeat rewrite <- app_assoc. apply skipn_length_app.
Qed.

(** C8.  [GET /] is registered with [fetchAllUsers] alone, without the
    authentication guard; two requests on the same table get the same
    effects whatever their principals; and when the table can be read the
    response is 200 with every user's id, email, name, role and
    timestamps, and their number. *)
Theorem fetchAllUsers_ignores_principal
    is_email trim toLowerCase fmt (req1 req2 : Request) (u1 u2 : option Principal)
    (rs : list UserRow) (f : option JsError) (clk : Z) (t : list Event) :
  let get := Routes.dispatch is_email trim toLowerCase fmt Routes.GET "/" in
  Routes.handlers_of Routes.GET "/" Routes.router = Some [Routes.FetchAllUsers]
  /\ existsb Routes.is_guard [Routes.FetchAllUsers] = false
  /\ emitted (get req1) (mkWorld u1 rs f clk t) = emitted (get req2) (mkWorld u2 rs f clk t)
  /\ emitted (get req1) (mkWorld u1 rs None clk t) =
       [LogInfo "Getting users..."; Db DbSelect;
        Send 200
          (JObj [("message", JStr "Successfully retrieved users");
                 ("users",
                  JArr (map (fun r =>
                               JObj [("id", JNum (u_id r)); ("email", JStr (u_email r));
                                     ("name", JStr (u_name r)); ("role", JStr (u_role r));
                                     ("created_at", JDate (u_created_at r));
                                     ("updated_at", JDate (u_updated_at r))]) rs));
                 ("count", JNum (Z.of_nat (List.length rs)))])].
Proof.
  cbv zeta. unfold Routes.dispatch. simpl Routes.handlers_of. cbv iota.
  assert (Hrun : forall req w,
             emitted (Routes.run is_email trim toLowerCase fmt [Routes.FetchAllUsers] req) w
             = emitted (Controller.fetchAllUsers req) w).
  { intros req w. unfold emitted, exec. rewrite run_single; [reflexivity|].
    apply fetchAllUsers_trace. }
  split_all.
  - reflexivity.
  - reflexivity.
  - rewrite !Hrun.
    rewrite (proj2 (fetchAllUsers_trace req1 _)), (proj2 (fetchAllUsers_trace req2 _)).
    reflexivity.
  - rewrite Hrun. rewrite (proj2 (fetchAllUsers_trace req1 _)). reflexivity.
Qed.

(** ** Changing a role *)

Section RoleChange.

Variable is_email : string -> bool.
Variable trim : string -> string.
Variable toLowerCase : string -> string.
Variable fmt : list Validation.Issue -> JsVal.

(** The role field passes with a role only for the two listed values, and
    passes without one only when the property is [undefined]. *)
Lemma role_field_accepts (v : JsVal) (r : option string) :
  Validation.role_field v = ([], r) ->
  match r with
  | Some s => v = JStr s /\ (s = "user" \/ s = "admin")
  | None => v = JUndef
  end.
Proof.
  destruct v; simpl; try discriminate.
  - intros H. inversion H. reflexivity.
  - destruct (String.eqb s "user") eqn:Hu; simpl.
    + intros H. inversion H. apply String.eqb_eq in Hu. auto.
    + destruct (String.eqb s "admin") eqn:Ha; intros H; inversion H.
      apply String.eqb_eq in Ha. auto.
Qed.

Lemma updateUserSchema_role (fields : list (string * JsVal)) (u : Validation.Updates) :
  Validation.updateUserSchema is_email trim toLowerCase (JObj fields) = Validation.Success u ->
  Validation.role_field (obj_get "role" fields) = ([], Validation.role u).
Proof.
  unfold Validation.updateUserSchema.
  destruct (Validation.name_field trim (obj_get "name" fields)) as [e1 n].
  destruct (Validation.email_field is_email trim toLowerCase (obj_get "email" fields)) as [e2 e].
  destruct (Validation.role_field (obj_get "role" fields)) as [e3 r].
  destruct e1; simpl; [|discriminate].
  destruct e2; simpl; [|discriminate].
  destruct e3; simpl; [|discriminate].
  destruct (Validation.some_defined _); intros H; inversion H. reflexivity.
Qed.

(** What the controller does with a role change asked by a requester who
    is not an administrator. *)
Lemma updateUser_role_refused (req : Request) (w : World) (fields : list (string * JsVal)) :
  body req = JObj fields ->
  obj_get "role" fields <> JUndef ->
  (forall p, user w = Some p -> Controller.is_admin p = false) ->
  let run := Controller.updateUser is_email trim toLowerCase fmt req in
  exec run w = mkWorld (user w) (rows w) (db_fault w) (clock w)
                 (trace w ++ emitted run w)
  /\ exists c b,
      emitted run w = [Send c b]
      /\ match Validation.userIdSchema (params_id req),
               Validation.updateUserSchema is_email trim toLowerCase (body req),
               user w with
         | Validation.Success uid, Validation.Success _, Some p =>
             c = 403
             /\ b = JObj [("error", JStr "Forbidden");
                          ("message",
                           JStr (if id p =? uid
                                 then "Only admin users can change roles"
                                 else "You can only change your own information"))]
         | Validation.Success _, Validation.Success _, None =>
             c = 401 /\ b = JObj [("error", JStr "Unauthorized")]
         | Validation.Success _, Validation.Failure error, _ =>
             c = 400
             /\ b = JObj [("error", JStr "Validation failed"); ("details", fmt error)]
         | Validation.Failure error, _, _ =>
             c = 400
             /\ b = JObj [("error", JStr "Validation failed"); ("details", fmt error)]
         end.
Proof.
  intros Hbody Hrole Hadmin. cbv zeta.
  unfold emitted, Controller.updateUser, Controller.validation_failed.
  destruct (Validation.userIdSchema (params_id req)) as [uid|err].
  2:{ step_handler. rewrite skipn_length_app. split; [reflexivity|].
      do 2 eexists. split_all; reflexivity. }
  rewrite Hbody.
  destruct (Validation.updateUserSchema is_email trim toLowerCase (JObj fields))
    as [u|err] eqn:Hu.
  2:{ step_handler. rewrite skipn_length_app. split; [reflexivity|].
      do 2 eexists. split_all; reflexivity. }
  apply updateUserSchema_role in Hu. apply role_field_accepts in Hu.
  destruct (Validation.role u) as [r|]; [|contradiction].
  step_handler.
  destruct (user w) as [p|] eqn:Hp; simpl.
  - rewrite (Hadmin p eq_refl). simpl. unfold Controller.is_self.
    destruct (id p =? uid); simpl; rewrite skipn_length_app, ?Hp;
      (split; [reflexivity|]); do 2 eexists; split_all; reflexivity.
  - rewrite skipn_length_app, ?Hp. split; [reflexivity|].
    do 2 eexists. split_all; reflexivity.
Qed.

End RoleChange.

(** C10, as amended.  When the body of an update carries a role and the
    requester is not an administrator, the controller sends no statement to
    the table and leaves it as it was.  Its one response is 400 with the
    validation details when the id fails validation and when the id passes
    and the body fails; 401 when both pass and no principal is attached;
    and 403 when both pass and a principal is attached.  The body schema
    accepts no role but [user] and [admin]. *)
Theorem updateUser_role_change_needs_admin
    is_email trim toLowerCase fmt (req : Request) (w : World)
    (fields : list (string * JsVal)) :
  body req = JObj fields ->
  obj_get "role" fields <> JUndef ->
  (forall p, user w = Some p -> role p <> "admin") ->
  let run := Controller.updateUser is_email trim toLowerCase fmt req in
  let parsed := Validation.updateUserSchema is_email trim toLowerCase (body req) in
  let checked := Validation.userIdSchema (params_id req) in
  let invalid error :=
    JObj [("error", JStr "Validation failed"); ("details", fmt error)] in
  rows (exec run w) = rows w
  /\ count is_db (emitted run w) = 0%nat
  /\ (exists c b,
        emitted run w = [Send c b]
        /\ responses (emitted run w) = [(c, b)]
        /\ (c = 400 \/ c = 401 \/ c = 403)
        /\ (forall uid u p,
              checked = Validation.Success uid ->
              parsed = Validation.Success u ->
              user w = Some p ->
              c = 403
              /\ b = JObj [("error", JStr "Forbidden");
                           ("message",
                            JStr (if id p =? uid
                                  then "Only admin users can change roles"
                                  else "You can only change your own information"))])
        /\ (forall error,
              checked = Validation.Failure error -> c = 400 /\ b = invalid error)
        /\ (forall uid error,
              checked = Validation.Success uid ->
              parsed = Validation.Failure error ->
              c = 400 /\ b = invalid error)
        /\ (forall uid u,
              checked = Validation.Success uid ->
              parsed = Validation.Success u ->
              user w = None ->
              c = 401 /\ b = JObj [("error", JStr "Unauthorized")]))
  /\ (forall u r,
        parsed = Validation.Success u -> Validation.role u = Some r ->
        r = "user" \/ r = "admin").
Proof.
  intros Hbody Hrole Hnot. cbv zeta.
  assert (Hadmin : forall p, user w = Some p -> Controller.is_admin p = false).
  { intros p Hp. apply String.eqb_neq. exact (Hnot p Hp). }
  destruct (updateUser_role_refused is_email trim toLowerCase fmt req w fields
              Hbody Hrole Hadmin) as [Hw [c [b [Hev Hc]]]].
  split_all.
  - rewrite Hw. reflexivity.
  - rewrite Hev. reflexivity.
  - exists c, b. rewrite Hev. split_all.
    + reflexivity.
    + reflexivity.
    + destruct (Validation.userIdSchema (params_id req)); [|tauto].
      destruct (Validation.updateUserSchema is_email trim toLowerCase (body req)); [|tauto].
      destruct (user w); tauto.
    + intros uid u p Hid Hu Hp. rewrite Hid, Hu, Hp in Hc. exact Hc.
    + intros error Hid. rewrite Hid in Hc. exact Hc.
    + intros uid error Hid Hu. rewrite Hid, Hu in Hc. exact Hc.
    + intros uid u Hid Hu Hp. rewrite Hid, Hu, Hp in Hc. exact Hc.
  - intros u r Hu Hr. rewrite Hbody in Hu.
    apply updateUserSchema_role in Hu. rewrite Hr in Hu.
    apply role_field_accepts in Hu. apply Hu.
Qed.

Lemma updateUser_role_change_needs_admin_witness :
  let req := Sample.role_request "admin" in
  let run := Controller.updateUser Sample.any_email Sample.unchanged Sample.unchanged
               Sample.no_details req in
  rows (exec run Sample.table) = [Sample.ann; Sample.bob]
  /\ count is_db (emitted run Sample.table) = 0%nat
  /\ exists c b,
      responses (emitted run Sample.table) = [(c, b)]
      /\ c = 403
      /\ b = JObj [("error", JStr "Forbidden");
                   ("message", JStr "Only admin users can change roles")].
Proof.
  cbv zeta.
  destruct (updateUser_role_change_needs_admin Sample.any_email Sample.unchanged
              Sample.unchanged Sample.no_details (Sample.role_request "admin")
              Sample.table [("role", JStr "admin")])
    as [Hrows [Hdb [[c [b [_ [Hresp [_ [Hc _]]]]]] _]]].
  - reflexivity.
  - discriminate.
  - intros p Hp. inversion Hp. discriminate.
  - split_all.
    + exact Hrows.
    + exact Hdb.
    + exists c, b. split; [exact Hresp|].
      apply (Hc 2 (Validation.mkUpdates None None (Some "admin")) Sample.member);
        reflexivity.
Defined.

(** C10 fails as stated: a requester with role [user] who sends a role the
    schema does not list is answered 400, not 403. *)
Lemma updateUser_unlisted_role_is_400 :
  obj_get "role" [("role", JStr "owner")] <> JUndef
  /\ user Sample.table = Some Sample.member
  /\ role Sample.member <> "admin"
  /\ responses
       (emitted (Controller.updateUser Sample.any_email Sample.unchanged Sample.unchanged
                   Sample.no_details (Sample.role_request "owner")) Sample.table)
     = [(400, JObj [("error", JStr "Validation failed"); ("details", JNull)])].
Proof.
  split_all; try reflexivity; discriminate.
Qed.

(** * Further properties *)

(** ** Composition of handlers *)

Lemma extends_trace_intro {A} (m : M A) :
  (forall w, exists evs, trace (snd (m w)) = (trace w ++ evs)%list) -> extends_trace m.
Proof.
  intros H w. destruct (H w) as [evs Hevs].
  rewrite (emitted_of_trace m w evs Hevs). exact Hevs.
Qed.

Lemma ext_ret {A} (a : A) : extends_trace (ret a).
Proof. apply extends_trace_intro. intros w. exists []. simpl. symmetry. apply app_nil_r. Qed.

Lemma ext_throw {A} (e : JsError) : extends_trace (@throw A e).
Proof. apply extends_trace_intro. intros w. exists []. simpl. symmetry. apply app_nil_r. Qed.

Lemma ext_lift {A} (r : Result A) : extends_trace (lift r).
Proof. apply extends_trace_intro. intros w. exists []. simpl. symmetry. apply app_nil_r. Qed.

Lemma ext_emit (ev : Event) : extends_trace (emit ev).
Proof. apply extends_trace_intro. intros w. exists [ev]. reflexivity. Qed.

Lemma ext_get_user : extends_trace get_user.
Proof. apply extends_trace_intro. intros w. exists []. simpl. symmetry. apply app_nil_r. Qed.

Lemma ext_set_user (u : option Principal) : extends_trace (set_user u).
Proof. apply extends_trace_intro. intros w. exists []. simpl. symmetry. apply app_nil_r. Qed.

Lemma ext_get_rows : extends_trace get_rows.
Proof. apply extends_trace_intro. intros w. exists []. simpl. symmetry. apply app_nil_r. Qed.

Lemma ext_set_rows (rs : list UserRow) : extends_trace (set_rows rs).
Proof. apply extends_trace_intro. intros w. exists []. simpl. symmetry. apply app_nil_r. Qed.

Lemma ext_get_clock : extends_trace get_clock.
Proof. apply extends_trace_intro. intros w. exists []. simpl. symmetry. apply app_nil_r. Qed.

Lemma ext_statement (op : DbOp) : extends_trace (statement op).
Proof.
  apply extends_trace_intro. intros w. exists [Db op].
  unfold statement. destruct (db_fault w); reflexivity.
Qed.

Lemma ext_bind {A B} (m : M A) (k : A -> M B) :
  extends_trace m -> (forall a, extends_trace (k a)) -> extends_trace (bind m k).
Proof.
  intros Hm Hk. apply extends_trace_intro. intros w. unfold bind.
  specialize (Hm w). destruct (m w) as [[a|e] w']; simpl in *.
  - specialize (Hk a w'). rewrite Hk, Hm, <- app_assoc. eexists. reflexivity.
  - eexists. exact Hm.
Qed.

Lemma ext_try_catch {A} (m : M A) (h : JsError -> M A) :
  extends_trace m -> (forall e, extends_trace (h e)) -> extends_trace (try_catch m h).
Proof.
  intros Hm Hh. apply extends_trace_intro. intros w. unfold try_catch.
  specialize (Hm w). destruct (m w) as [[a|e] w']; simpl in *.
  - eexists. exact Hm.
  - specialize (Hh e w'). rewrite Hh, Hm, <- app_assoc. eexists. reflexivity.
Qed.

Ltac ext :=
  repeat first
    [ apply ext_emit | apply ext_ret | apply ext_throw | apply ext_lift
    | apply ext_get_user | apply ext_set_user | apply ext_get_rows | apply ext_set_rows
    | apply ext_get_clock | apply ext_statement | apply ext_try_catch | apply ext_bind
    | match goal with
      | |- forall _, _ => intro
      | |- extends_trace (match ?x with _ => _ end) => destruct x
      | |- extends_trace (if ?x then _ else _) => destruct x
      | |- extends_trace (let _ := _ in _) => cbv zeta
      end ].

Lemma ext_attachUserFromToken verify (req : Request) :
  extends_trace (Auth.attachUserFromToken verify req).
Proof. unfold Auth.attachUserFromToken, Auth.unauthenticated. ext. Qed.

Lemma ext_securityMiddleware protect (req : Request) :
  extends_trace (Security.securityMiddleware protect req).
Proof.
  unfold Security.securityMiddleware, Security.denied_and, Security.call_reason. ext.
Qed.

Lemma ext_handle is_email trim toLowerCase fmt (h : Routes.Handler) (req : Request) :
  extends_trace (Routes.handle is_email trim toLowerCase fmt h req).
Proof.
  destruct h; simpl;
    unfold Auth.requireAuth, Controller.fetchAllUsers, Controller.getUserById,
      Controller.updateUser, Controller.deleteUser, Controller.validation_failed,
      Controller.not_found_or_next, Service.getAllUsers, Service.getUserById,
      Service.updateUser, Service.deleteUser;
    ext.
Qed.

Lemma count_app (p : Event -> bool) (l x : list Event) :
  count p (l ++ x) = (count p l + count p x)%nat.
Proof. unfold count. rewrite filter_app, length_app. reflexivity. Qed.

(** [next()] was called when a [Next] is among the effects added. *)
Lemma called_next_emitted {A} (m : M A) (w : World) :
  extends_trace m ->
  Routes.called_next w (snd (m w)) = (0 <? count is_next (emitted m w))%nat.
Proof.
  intros H. unfold Routes.called_next. rewrite (H w), count_app.
  destruct (count is_next (emitted m w)) as [|n].
  - rewrite Nat.add_0_r. apply Nat.ltb_irrefl.
  - simpl. apply Nat.ltb_lt. lia.
Qed.

(** The second handler runs in the state the first one left, if the first
    one called [next()]. *)
Lemma and_then_run (a b : M unit) (w : World) :
  extends_trace a ->
  fst (a w) = Ok tt ->
  App.and_then a b w =
    if (0 <? count is_next (emitted a w))%nat then b (snd (a w)) else (Ok tt, snd (a w)).
Proof.
  intros Ha Hok. unfold App.and_then.
  rewrite <- (called_next_emitted a w Ha).
  destruct (a w) as [[[]|e] w']; simpl in *; [reflexivity|discriminate].
Qed.

(** ** The identity resolver: where the credential is read *)

Lemma substring_all (s : string) : String.substring 0 (String.length s) s = s.
Proof. induction s as [|c s IH]; simpl; [reflexivity | rewrite IH; reflexivity]. Qed.

(** With no usable cookie, the text after [Bearer ] is the token. *)
Lemma token_of_bearer (req : Request) (t : string) :
  falsy (cookies_token req) = true ->
  authorization req = Some ("Bearer " ++ t) ->
  Auth.token_of req = Some t.
Proof.
  intros Hc Ha. unfold Auth.token_of. rewrite Hc, Ha. simpl.
  rewrite Nat.sub_0_r, substring_all. destruct t; reflexivity.
Qed.

(** The resolver changes [req.user] and the trace, nothing else; it calls
    [next()] once and neither answers nor touches the table or the
    provider. *)
Lemma attachUserFromToken_frame verify (req : Request) (w : World) :
  let run := Auth.attachUserFromToken verify req in
  run w = (Ok tt, mkWorld (user (exec run w)) (rows w) (db_fault w) (clock w)
                    (trace w ++ emitted run w))
  /\ count is_next (emitted run w) = 1%nat
  /\ (emitted run w = [Next] \/ exists msg meta, emitted run w = [LogWarn msg meta; Next]).
Proof.
  unfold emitted, Auth.attachUserFromToken, Auth.unauthenticated. cbv zeta.
  destruct (Auth.token_of req) as [t|].
  - destruct (falsy (Some t)).
    + step_handler. rewrite skipn_length_app. split_all; auto.
    + destruct (verify t) as [p|e].
      * step_handler. rewrite skipn_length_app. split_all; auto.
      * step_handler. rewrite <- app_assoc, skipn_length_app. split_all; auto.
        right. do 2 eexists. reflexivity.
  - step_handler. rewrite skipn_length_app. split_all; auto.
Qed.

(** Without a usable token the resolver leaves [req.user] undefined and
    only calls [next()]. *)
Lemma attachUserFromToken_no_token verify (req : Request) (w : World) :
  falsy (Auth.token_of req) = true ->
  Auth.attachUserFromToken verify req w =
    (Ok tt, mkWorld None (rows w) (db_fault w) (clock w) (trace w ++ [Next])).
Proof.
  intros Hf. unfold Auth.attachUserFromToken, Auth.unauthenticated. cbv zeta.
  destruct (Auth.token_of req) as [t|]; [rewrite Hf|]; reflexivity.
Qed.

(** X1.  A token sent as [Authorization: Bearer <token>], with no cookie,
    is the one handed to the verifier: when the verifier accepts it, its
    claims become [req.user] and nothing is logged. *)
Theorem attachUserFromToken_bearer_header
    verify (req : Request) (w : World) (t : string) (claims : Payload) :
  falsy (cookies_token req) = true ->
  authorization req = Some ("Bearer " ++ t) ->
  falsy (Some t) = false ->
  verify t = Ok claims ->
  user (exec (Auth.attachUserFromToken verify req) w)
    = Some (mkPrincipal (p_id claims) (p_email claims) (p_role claims))
  /\ emitted (Auth.attachUserFromToken verify req) w = [Next].
Proof.
  intros Hc Ha Ht Hv.
  apply attachUserFromToken_valid with t; auto using token_of_bearer.
Qed.

Lemma attachUserFromToken_bearer_header_witness :
  user (exec (Auth.attachUserFromToken Sample.accepting_verifier Sample.bearer_request)
          (Sample.world None))
    = Some (mkPrincipal 2 "ann@example.com" "user")
  /\ emitted (Auth.attachUserFromToken Sample.accepting_verifier Sample.bearer_request)
       (Sample.world None) = [Next].
Proof.
  apply (attachUserFromToken_bearer_header Sample.accepting_verifier Sample.bearer_request
           (Sample.world None) "eyJhbGciOi.expired.sig" Sample.claims); reflexivity.
Defined.

(** X2.  The cookie wins: when the [token] cookie is not empty, the
    [Authorization] header plays no role in what the resolver does. *)
Theorem attachUserFromToken_cookie_first
    verify (c : string) (h1 h2 ua : option string) (i p : string)
    (pid : option string) (b : JsVal) (w : World) :
  falsy (Some c) = false ->
  Auth.token_of (mkRequest (Some c) h1 ua i p pid b) = Some c
  /\ Auth.attachUserFromToken verify (mkRequest (Some c) h1 ua i p pid b) w
     = Auth.attachUserFromToken verify (mkRequest (Some c) h2 ua i p pid b) w.
Proof.
  intros Hc. unfold Auth.attachUserFromToken, Auth.token_of. simpl cookies_token.
  rewrite Hc. split; reflexivity.
Qed.

Lemma attachUserFromToken_cookie_first_witness :
  Auth.token_of (mkRequest (Some "cookie.jwt") (Some "Bearer header.jwt") None
                   "203.0.113.9" "/api/users" None JUndef) = Some "cookie.jwt"
  /\ Auth.attachUserFromToken Sample.accepting_verifier
       (mkRequest (Some "cookie.jwt") (Some "Bearer header.jwt") None
          "203.0.113.9" "/api/users" None JUndef) (Sample.world None)
     = Auth.attachUserFromToken Sample.accepting_verifier
         (mkRequest (Some "cookie.jwt") None None
            "203.0.113.9" "/api/users" None JUndef) (Sample.world None).
Proof.
  apply (attachUserFromToken_cookie_first Sample.accepting_verifier "cookie.jwt"
           (Some "Bearer header.jwt") None None "203.0.113.9" "/api/users" None JUndef
           (Sample.world None)).
  reflexivity.
Defined.

(** X3.  An [Authorization] header that does not start with [Bearer ] is no
    credential: with no cookie the request goes on as unauthenticated, the
    verifier is not consulted and nothing is logged. *)
Theorem attachUserFromToken_other_scheme verify (req : Request) (w : World) :
  falsy (cookies_token req) = true ->
  String.prefix "Bearer " (Auth.or_empty (authorization req)) = false ->
  Auth.attachUserFromToken verify req w =
    (Ok tt, mkWorld None (rows w) (db_fault w) (clock w) (trace w ++ [Next])).
Proof.
  intros Hc Hp. apply attachUserFromToken_no_token.
  unfold Auth.token_of. rewrite Hc, Hp. exact Hc.
Qed.

Lemma attachUserFromToken_other_scheme_witness :
  Auth.attachUserFromToken Sample.accepting_verifier
    (mkRequest None (Some "bearer eyJhbGciOi.lower.case") None "203.0.113.9" "/api/users"
       None JUndef) (Sample.world (Some Sample.admin))
  = (Ok tt, mkWorld None [] None 0 [Next]).
Proof.
  apply (attachUserFromToken_other_scheme Sample.accepting_verifier
           (mkRequest None (Some "bearer eyJhbGciOi.lower.case") None "203.0.113.9"
              "/api/users" None JUndef) (Sample.world (Some Sample.admin)));
    reflexivity.
Defined.

(** X4.  A principal already on the request does not survive the resolver:
    what it leaves in [req.user] depends on the request and the verifier
    only. *)
Theorem attachUserFromToken_overwrites
    verify (req : Request) (u1 u2 : option Principal)
    (rs : list UserRow) (f : option JsError) (clk : Z) (t : list Event) :
  Auth.attachUserFromToken verify req (mkWorld u1 rs f clk t)
  = Auth.attachUserFromToken verify req (mkWorld u2 rs f clk t).
Proof.
  unfold Auth.attachUserFromToken, Auth.unauthenticated. cbv zeta.
  destruct (Auth.token_of req) as [tok|]; [|reflexivity].
  destruct (falsy (Some tok)); [reflexivity|].
  step_handler. destruct (verify tok); reflexivity.
Qed.

(** ** The guard, the admission controller and the pipeline *)

Lemma queries_app (l x : list Event) : queries (l ++ x) = (queries l ++ queries x)%list.
Proof.
  induction l as [|ev l IH]; simpl; [reflexivity|].
  destruct ev; simpl; rewrite ?IH; reflexivity.
Qed.

Lemma responses_app (l x : list Event) :
  responses (l ++ x) = (responses l ++ responses x)%list.
Proof.
  induction l as [|ev l IH]; simpl; [reflexivity|].
  destruct ev; simpl; rewrite ?IH; reflexivity.
Qed.

(** The effects of two chained handlers. *)
Lemma emitted_and_then (a b : M unit) (w : World) :
  extends_trace a -> extends_trace b ->
  fst (a w) = Ok tt ->
  emitted (App.and_then a b) w =
    (emitted a w ++
     if (0 <? count is_next (emitted a w))%nat then emitted b (snd (a w)) else [])%list.
Proof.
  intros Ha Hb Hok. apply emitted_of_trace. unfold exec.
  rewrite (and_then_run a b w Ha Hok).
  destruct (0 <? count is_next (emitted a w))%nat; simpl.
  - rewrite (Hb (snd (a w))), (Ha w), <- app_assoc. reflexivity.
  - rewrite app_nil_r. apply Ha.
Qed.

Lemma ext_and_then (a b : M unit) :
  extends_trace a -> extends_trace b -> extends_trace (App.and_then a b).
Proof.
  intros Ha Hb. apply extends_trace_intro. intros w. unfold App.and_then.
  pose proof (Ha w) as Haw. destruct (a w) as [[[]|e] w']; simpl in *.
  - destruct (Routes.called_next w w'); simpl.
    + rewrite (Hb w'), Haw, <- app_assoc. eexists. reflexivity.
    + eexists. exact Haw.
  - eexists. exact Haw.
Qed.

(** The admission controller changes the trace only, and completes. *)
Lemma securityMiddleware_frame protect (req : Request) (w : World) :
  Security.securityMiddleware protect req w =
    (Ok tt, mkWorld (user w) (rows w) (db_fault w) (clock w)
              (trace w ++ emitted (Security.securityMiddleware protect req) w)).
Proof.
  unfold emitted, Security.securityMiddleware, Security.denied_and, Security.call_reason.
  step_handler.
  destruct (protect (Security.rule_of (user w)) req) as [d|e]; simpl.
  - destruct (isDenied d); simpl.
    + destruct (isBot (reason d)); simpl;
        repeat rewrite <- app_assoc; rewrite skipn_length_app; reflexivity.
    + repeat rewrite <- app_assoc; rewrite skipn_length_app; reflexivity.
  - repeat rewrite <- app_assoc; rewrite skipn_length_app; reflexivity.
Qed.

(** X5.  The admission controller always completes and never changes
    [req.user], the users table or the clock, whatever the provider
    answers: it only logs, queries the provider and responds or calls
    [next()]. *)
Theorem securityMiddleware_touches_nothing protect (req : Request) (w : World) :
  let w' := exec (Security.securityMiddleware protect req) w in
  fst (Security.securityMiddleware protect req w) = Ok tt
  /\ user w' = user w
  /\ rows w' = rows w
  /\ db_fault w' = db_fault w
  /\ clock w' = clock w
  /\ count is_db (emitted (Security.securityMiddleware protect req) w) = 0%nat.
Proof.
  cbv zeta. unfold exec. rewrite securityMiddleware_frame. simpl. split_all; try reflexivity.
  destruct (securityMiddleware_shapes protect req w)
    as [[-> _]|[[-> _]|[[-> _]|[e [-> _]]]]]; reflexivity.
Qed.

(** A route runs its first handler and then, if that one called [next()],
    the others. *)
Lemma run_cons is_email trim toLowerCase fmt (h : Routes.Handler)
    (rest : list Routes.Handler) (req : Request) :
  Routes.run is_email trim toLowerCase fmt (h :: rest) req =
    App.and_then (Routes.handle is_email trim toLowerCase fmt h req)
                 (Routes.run is_email trim toLowerCase fmt rest req).
Proof. reflexivity. Qed.

Lemma ext_run is_email trim toLowerCase fmt (hs : list Routes.Handler) (req : Request) :
  extends_trace (Routes.run is_email trim toLowerCase fmt hs req).
Proof.
  induction hs as [|h hs IH]; [apply ext_ret|].
  rewrite run_cons. apply ext_and_then; [apply ext_handle | exact IH].
Qed.

Lemma ext_dispatch is_email trim toLowerCase fmt (v : Routes.Verb) (pattern : string)
    (req : Request) :
  extends_trace (Routes.dispatch is_email trim toLowerCase fmt v pattern req).
Proof.
  unfold Routes.dispatch.
  destruct (Routes.handlers_of v pattern Routes.router); [apply ext_run | apply ext_ret].
Qed.

(** Without a principal the guard answers 401 and the controller of a
    route on [/:id] does not run. *)
Lemma dispatch_id_anonymous
    is_email trim toLowerCase fmt (v : Routes.Verb) (req : Request)
    (rs : list UserRow) (f : option JsError) (clk : Z) (t : list Event) :
  Routes.dispatch is_email trim toLowerCase fmt v "/:id" req (mkWorld None rs f clk t)
  = (Ok tt, mkWorld None rs f clk
              (t ++ [Send 401 (JObj [("error", JStr "Unauthorized");
                                     ("message", JStr "Authentication required")])])).
Proof.
  assert (Hn : forall h,
             Routes.run is_email trim toLowerCase fmt [Routes.RequireAuth; h] req
               (mkWorld None rs f clk t)
             = (Ok tt, mkWorld None rs f clk
                         (t ++ [Send 401 (JObj [("error", JStr "Unauthorized");
                                                ("message", JStr "Authentication required")])]))).
  { intros h. rewrite run_cons.
    rewrite and_then_run; [|apply ext_handle|reflexivity].
    unfold emitted. simpl. rewrite skipn_length_app. reflexivity. }
  destruct v; unfold Routes.dispatch; simpl Routes.handlers_of; cbv iota; apply Hn.
Qed.

(** X6.  Every route on [/:id] is behind the guard: without a principal
    the only effect of a GET, PUT or DELETE is the 401 response; the
    controller does not run, so the table is neither read nor changed. *)
Theorem id_routes_require_principal
    is_email trim toLowerCase fmt (v : Routes.Verb) (req : Request)
    (rs : list UserRow) (f : option JsError) (clk : Z) (t : list Event) :
  let run := Routes.dispatch is_email trim toLowerCase fmt v "/:id" req in
  emitted run (mkWorld None rs f clk t) =
    [Send 401 (JObj [("error", JStr "Unauthorized");
                     ("message", JStr "Authentication required")])]
  /\ rows (exec run (mkWorld None rs f clk t)) = rs
  /\ hd_error (match Routes.handlers_of v "/:id" Routes.router with
               | Some hs => hs
               | None => []
               end) = Some Routes.RequireAuth.
Proof.
  cbv zeta. unfold emitted, exec. rewrite dispatch_id_anonymous. simpl.
  rewrite skipn_length_app. split_all; try reflexivity. destruct v; reflexivity.
Qed.

(** ** From the token to the routes *)

Section Pipeline.

Variable verify : string -> Result Payload.
Variable protect : SlidingWindowOptions -> Request -> Result Decision.
Variable is_email : string -> bool.
Variable trim : string -> string.
Variable toLowerCase : string -> string.
Variable fmt : list Validation.Issue -> JsVal.

(** The admission controller runs in the state the resolver left. *)
Lemma admission_emitted (req : Request) (w : World) :
  emitted (App.admission verify protect req) w =
    (emitted (Auth.attachUserFromToken verify req) w ++
     emitted (Security.securityMiddleware protect req)
       (exec (Auth.attachUserFromToken verify req) w))%list.
Proof.
  destruct (attachUserFromToken_frame verify req w) as [Hw [Hn _]].
  unfold App.admission. rewrite emitted_and_then.
  - rewrite Hn. reflexivity.
  - apply ext_attachUserFromToken.
  - apply ext_securityMiddleware.
  - rewrite Hw. reflexivity.
Qed.

(** The effects of a request for a user route, stage by stage. *)
Lemma users_emitted (v : Routes.Verb) (pattern : string) (req : Request) (w : World) :
  let wa := exec (Auth.attachUserFromToken verify req) w in
  let ws := exec (Security.securityMiddleware protect req) wa in
  emitted (App.users verify protect is_email trim toLowerCase fmt v pattern req) w =
    (emitted (Auth.attachUserFromToken verify req) w ++
     emitted (Security.securityMiddleware protect req) wa ++
     if (0 <? count is_next (emitted (Security.securityMiddleware protect req) wa))%nat
     then emitted (Routes.dispatch is_email trim toLowerCase fmt v pattern req) ws
     else [])%list.
Proof.
  cbv zeta.
  destruct (attachUserFromToken_frame verify req w) as [Hw [Hn _]].
  unfold App.users. rewrite emitted_and_then.
  - rewrite Hn. simpl. f_equal.
    rewrite emitted_and_then.
    + reflexivity.
    + apply ext_securityMiddleware.
    + apply ext_dispatch.
    + rewrite securityMiddleware_frame. reflexivity.
  - apply ext_attachUserFromToken.
  - apply ext_and_then; [apply ext_securityMiddleware | apply ext_dispatch].
  - rewrite Hw. reflexivity.
Qed.

(** What a request without an acceptable credential leaves in [req.user]. *)
Lemma attachUserFromToken_anonymous (req : Request) (w : World) :
  (forall t, Auth.token_of req = Some t -> falsy (Some t) = false ->
             exists e, verify t = Throw e) ->
  user (exec (Auth.attachUserFromToken verify req) w) = None
  /\ queries (emitted (Auth.attachUserFromToken verify req) w) = [].
Proof.
  intros H. unfold emitted, Auth.attachUserFromToken, Auth.unauthenticated. cbv zeta.
  destruct (Auth.token_of req) as [t|].
  - destruct (falsy (Some t)) eqn:Hf.
    + step_handler. rewrite skipn_length_app. split; reflexivity.
    + destruct (H t eq_refl Hf) as [e He]. step_handler. rewrite He. simpl.
      rewrite <- app_assoc, skipn_length_app. split; reflexivity.
  - step_handler. rewrite skipn_length_app. split; reflexivity.
Qed.

(** X7.  The tier follows the token: when the verifier accepts the
    request's token, the one rule submitted to the provider is the rule of
    the role in the token's claims, whatever [req.user] held before. *)
Theorem admission_tier_of_token (req : Request) (w : World) (t : string) (claims : Payload) :
  Auth.token_of req = Some t ->
  falsy (Some t) = false ->
  verify t = Ok claims ->
  queries (emitted (App.admission verify protect req) w) =
    [Security.rule_of (Some (mkPrincipal (p_id claims) (p_email claims) (p_role claims)))].
Proof.
  intros Ht Hf Hv.
  destruct (attachUserFromToken_valid verify req w t claims Ht Hf Hv) as [Hu He].
  rewrite admission_emitted, queries_app, He, securityMiddleware_queries, Hu.
  reflexivity.
Qed.

(** X8.  A request without a token, or with a token the verifier rejects,
    is rate-limited in the guest tier: the rule submitted has a one-minute
    window and a maximum of 5. *)
Theorem admission_guest_without_credential (req : Request) (w : World) :
  (forall t, Auth.token_of req = Some t -> falsy (Some t) = false ->
             exists e, verify t = Throw e) ->
  queries (emitted (App.admission verify protect req) w) =
    [mkOptions "LIVE" "1m" (Some 5) "${role}-rate-limit"].
Proof.
  intros H. destruct (attachUserFromToken_anonymous req w H) as [Hu Hq].
  rewrite admission_emitted, queries_app, Hq, securityMiddleware_queries, Hu.
  reflexivity.
Qed.

(** X9.  A request the provider denies, or for which the provider call
    fails, never reaches a user route: the table is neither queried nor
    changed and the one response is a 403 or a 500. *)
Theorem refused_request_stops_before_routes
    (v : Routes.Verb) (pattern : string) (req : Request) (w : World) :
  (forall rule d, protect rule req = Ok d -> isDenied d = true) ->
  let run := App.users verify protect is_email trim toLowerCase fmt v pattern req in
  rows (exec run w) = rows w
  /\ count is_db (emitted run w) = 0%nat
  /\ exists c b, responses (emitted run w) = [(c, b)] /\ (c = 403 \/ c = 500).
Proof.
  intros Hdeny. cbv zeta.
  set (wa := exec (Auth.attachUserFromToken verify req) w).
  assert (Hs : count is_next (emitted (Security.securityMiddleware protect req) wa) = 0%nat
               /\ count is_db (emitted (Security.securityMiddleware protect req) wa) = 0%nat
               /\ exists c b,
                   responses (emitted (Security.securityMiddleware protect req) wa) = [(c, b)]
                   /\ (c = 403 \/ c = 500)).
  { destruct (securityMiddleware_shapes protect req wa)
      as [[_ [d [Hd Ha]]]|[[-> _]|[[-> _]|[e [-> _]]]]].
    - rewrite (Hdeny _ _ Hd) in Ha. discriminate.
    - split_all; try reflexivity. do 2 eexists. split; [reflexivity|auto].
    - split_all; try reflexivity. do 2 eexists. split; [reflexivity|auto].
    - split_all; try reflexivity. do 2 eexists. split; [reflexivity|auto]. }
  destruct Hs as [Hnext [Hdb [c [b [Hresp Hc]]]]].
  destruct (attachUserFromToken_frame verify req w) as [Hw [_ Hshape]].
  pose proof (users_emitted v pattern req w) as Hev. cbv zeta in Hev.
  fold wa in Hev. rewrite Hnext in Hev. simpl in Hev. rewrite app_nil_r in Hev.
  split_all.
  - unfold exec, App.users.
    rewrite and_then_run; [|apply ext_attachUserFromToken|rewrite Hw; reflexivity].
    destruct (attachUserFromToken_frame verify req w) as [_ [Hn _]]. rewrite Hn. simpl.
    rewrite and_then_run;
      [|apply ext_securityMiddleware|rewrite securityMiddleware_frame; reflexivity].
    fold (exec (Auth.attachUserFromToken verify req) w). fold wa.
    rewrite Hnext. simpl. rewrite securityMiddleware_frame. simpl.
    unfold wa, exec. rewrite Hw. reflexivity.
  - rewrite Hev, count_app, Hdb.
    destruct Hshape as [->|[msg [meta ->]]]; reflexivity.
  - exists c, b. rewrite Hev, responses_app, Hresp.
    split; [|exact Hc].
    destruct Hshape as [->|[msg [meta ->]]]; reflexivity.
Qed.

(** X10.  End to end: a request without a credential that the provider
    allows, sent to a route on [/:id], is resolved as a guest, admitted in
    the guest tier and stopped by the guard with 401. *)
Theorem anonymous_request_to_id_route
    (v : Routes.Verb) (req : Request) (w : World) :
  falsy (Auth.token_of req) = true ->
  (forall rule, exists d, protect rule req = Ok d /\ isDenied d = false) ->
  emitted (App.users verify protect is_email trim toLowerCase fmt v "/:id" req) w =
    [Next;
     Protect (mkOptions "LIVE" "1m" (Some 5) "${role}-rate-limit");
     Next;
     Send 401 (JObj [("error", JStr "Unauthorized");
                     ("message", JStr "Authentication required")])].
Proof.
  intros Hf Hallow.
  pose proof (users_emitted v "/:id" req w) as Hev. cbv zeta in Hev.
  unfold exec in Hev. rewrite (attachUserFromToken_no_token verify req w Hf) in Hev.
  simpl snd in Hev.
  set (wa := mkWorld None (rows w) (db_fault w) (clock w) (trace w ++ [Next])) in *.
  destruct (Hallow (Security.rule_of (user wa))) as [d [Hd Ha]].
  rewrite (securityMiddleware_frame protect req wa) in Hev. simpl snd in Hev.
  rewrite (securityMiddleware_allow protect req wa d Hd Ha) in Hev.
  simpl in Hev.
  unfold emitted at 3 in Hev. unfold exec in Hev.
  rewrite dispatch_id_anonymous in Hev. simpl in Hev.
  rewrite skipn_length_app in Hev.
  rewrite Hev.
  rewrite (emitted_of_trace _ w [Next]).
  - reflexivity.
  - unfold exec. rewrite (attachUserFromToken_no_token verify req w Hf). reflexivity.
Qed.

End Pipeline.

(** ** The schemas *)

Lemma is_digit_bounds (c : ascii) :
  Validation.is_digit c = true <-> (48 <= nat_of_ascii c <= 57)%nat.
Proof.
  unfold Validation.is_digit. rewrite andb_true_iff, !Nat.leb_le. tauto.
Qed.

Lemma all_digits_Forall (s : string) :
  Validation.all_digits s = true <->
  Forall (fun c => (48 <= nat_of_ascii c <= 57)%nat) (list_ascii_of_string s).
Proof.
  induction s as [|c s IH]; simpl.
  - split; [constructor | reflexivity].
  - rewrite andb_true_iff, is_digit_bounds, IH. split.
    + intros [Hc Hs]. constructor; assumption.
    + intros H. inversion H; subst. split; assumption.
Qed.

Lemma parse_digits_nonneg (s : string) (acc : Z) :
  Validation.all_digits s = true -> 0 <= acc -> 0 <= Validation.parse_digits acc s.
Proof.
  revert acc.
  induction s as [|c s IH]; cbn [Validation.parse_digits Validation.all_digits];
    intros acc Hd Hacc; [exact Hacc|].
  apply andb_true_iff in Hd. destruct Hd as [Hc Hs].
  apply is_digit_bounds in Hc. apply IH; [exact Hs | lia].
Qed.

Lemma to_double_nonneg (n : Z) : 0 <= n -> 0 <= Validation.to_double n.
Proof.
  intros Hn. unfold Validation.to_double.
  destruct (n <? 2 ^ 53); [exact Hn|].
  assert (Hp : 0 <= 2 ^ (Z.log2 n - 52)) by (apply Z.pow_nonneg; lia).
  assert (Hq : 0 <= n / 2 ^ (Z.log2 n - 52)) by (apply Z_div_nonneg_nonneg; assumption).
  cbv zeta.
  repeat match goal with |- context [if ?b then _ else _] => destruct b end; nia.
Qed.

Lemma to_double_exact (n : Z) : n < 2 ^ 53 -> Validation.to_double n = n.
Proof.
  intros Hn. unfold Validation.to_double.
  destruct (n <? 2 ^ 53) eqn:E; [reflexivity|]. apply Z.ltb_ge in E. lia.
Qed.

(** Beyond 2^53 the parsed id is the nearest double, not the number
    written. *)
Example parseInt_rounds :
  Validation.parseInt "9007199254740993" = 9007199254740992
  /\ Validation.parseInt "9007199254740995" = 9007199254740996.
Proof. split; vm_compute; reflexivity. Qed.

(** X11.  An id is accepted only when it is a non-empty string of the
    digits 0 to 9, and the number it is parsed to is never negative. *)
Theorem userIdSchema_accepts_digits (params_id : option string) (n : Z) :
  Validation.userIdSchema params_id = Validation.Success n ->
  0 <= n
  /\ exists s, params_id = Some s /\ s <> ""
               /\ Forall (fun c => (48 <= nat_of_ascii c <= 57)%nat) (list_ascii_of_string s).
Proof.
  unfold Validation.userIdSchema, Validation.numeric.
  destruct params_id as [s|]; [|discriminate].
  destruct (String.eqb s "") eqn:He; simpl; [discriminate|].
  destruct (Validation.all_digits s) eqn:Hd; [|discriminate].
  intros H. inversion H; subst. split.
  - apply to_double_nonneg. apply parse_digits_nonneg; [exact Hd | lia].
  - exists s. split_all; [reflexivity | apply String.eqb_neq; exact He
                        | apply all_digits_Forall; exact Hd].
Qed.

Lemma userIdSchema_accepts_digits_witness :
  0 <= 42
  /\ exists s, Some "42" = Some s /\ s <> ""
               /\ Forall (fun c => (48 <= nat_of_ascii c <= 57)%nat) (list_ascii_of_string s).
Proof.
  apply (userIdSchema_accepts_digits (Some "42") 42). reflexivity.
Defined.

(** X12.  An id with a character that is not a digit (a sign, a space, a
    decimal point, a letter) is rejected with the message of the schema. *)
Theorem userIdSchema_rejects_non_digit (s : string) (c : ascii) :
  In c (list_ascii_of_string s) ->
  Validation.is_digit c = false ->
  Validation.userIdSchema (Some s)
  = Validation.Failure [Validation.issue "id" (Some "User id must be a numeric string")].
Proof.
  intros Hin Hc. unfold Validation.userIdSchema, Validation.numeric.
  assert (Hd : Validation.all_digits s = false).
  { induction s as [|a s IH]; simpl in *; [contradiction|].
    destruct Hin as [->|Hin]; [rewrite Hc; reflexivity|].
    rewrite (IH Hin). apply andb_false_r. }
  rewrite Hd, andb_false_r. reflexivity.
Qed.

Lemma userIdSchema_rejects_non_digit_witness :
  Validation.userIdSchema (Some "-7")
  = Validation.Failure [Validation.issue "id" (Some "User id must be a numeric string")].
Proof.
  apply (userIdSchema_rejects_non_digit "-7" "-"%char); [left|]; reflexivity.
Defined.

Lemma parse_digits_acc (d : Decimal.uint) (acc : positive) :
  Validation.parse_digits (Zpos acc) (NilEmpty.string_of_uint d)
  = Zpos (Pos.of_uint_acc d acc).
Proof.
  revert acc. induction d; intros acc;
    cbn [NilEmpty.string_of_uint Validation.parse_digits Pos.of_uint_acc];
    try reflexivity; rewrite <- IHd; f_equal;
    rewrite Pos2Z.inj_add, Pos2Z.inj_mul;
    match goal with
    | |- context [nat_of_ascii ?c] =>
        let v := eval vm_compute in (Z.of_nat (nat_of_ascii c)) in
        change (Z.of_nat (nat_of_ascii c)) with v
    end;
    lia.
Qed.

Lemma parse_digits_of_uint (d : Decimal.uint) :
  Validation.parse_digits 0 (NilEmpty.string_of_uint d) = Z.of_N (Pos.of_uint d).
Proof.
  induction d; simpl; try reflexivity; try exact IHd;
    apply (parse_digits_acc d).
Qed.

Lemma all_digits_of_uint (d : Decimal.uint) :
  Validation.all_digits (NilEmpty.string_of_uint d) = true.
Proof. induction d; simpl; auto. Qed.

(** X13.  Round trip: the decimal text of an id from 0 to 2^53 - 1, the
    integers a double holds exactly, is accepted and parsed back to that
    id. *)
Theorem userIdSchema_parses_decimal (n : Z) :
  0 <= n < 2 ^ 53 ->
  Validation.userIdSchema (Some (num_str n)) = Validation.Success n.
Proof.
  intros [Hn Hsafe]. destruct n as [|p|p]; [reflexivity| |lia].
  unfold num_str, Validation.userIdSchema, Validation.numeric, Validation.parseInt.
  simpl Z.to_int. unfold NilZero.string_of_int, NilZero.string_of_uint.
  pose proof (DecimalPos.Unsigned.to_uint_nonnil p) as Hnil.
  pose proof (DecimalPos.Unsigned.of_to p) as Hof.
  pose proof (parse_digits_of_uint (Pos.to_uint p)) as Hp.
  pose proof (all_digits_of_uint (Pos.to_uint p)) as Hd.
  destruct (Pos.to_uint p) eqn:Hu; [congruence| ..];
    rewrite Hd, Hp, Hof; simpl Z.of_N; rewrite (to_double_exact _ Hsafe); reflexivity.
Qed.

Lemma userIdSchema_parses_decimal_witness :
  Validation.userIdSchema (Some (num_str 1207)) = Validation.Success 1207.
Proof. apply (userIdSchema_parses_decimal 1207). lia. Defined.

Section SchemaFacts.

Variable is_email : string -> bool.
Variable trim : string -> string.
Variable toLowerCase : string -> string.

(** X14.  An update must change something: a body that is not an object is
    rejected, a body with none of [name], [email] and [role] is rejected
    with the message of the schema whatever other properties it carries,
    and an accepted update has at least one of the three. *)
Theorem updateUserSchema_needs_a_field (b : JsVal) :
  (forall fields,
      b = JObj fields ->
      obj_get "name" fields = JUndef ->
      obj_get "email" fields = JUndef ->
      obj_get "role" fields = JUndef ->
      Validation.updateUserSchema is_email trim toLowerCase b
      = Validation.Failure
          [Validation.issue "" (Some "At least one field must be provided for update")])
  /\ (forall u,
         Validation.updateUserSchema is_email trim toLowerCase b = Validation.Success u ->
         (exists fields, b = JObj fields)
         /\ (Validation.name u <> None \/ Validation.email u <> None
             \/ Validation.role u <> None)).
Proof.
  split.
  - intros fields -> Hn He Hr. unfold Validation.updateUserSchema.
    rewrite Hn, He, Hr. reflexivity.
  - intros u H. destruct b; try discriminate. split; [eexists; reflexivity|].
    unfold Validation.updateUserSchema in H.
    destruct (Validation.name_field trim (obj_get "name" fields)) as [e1 n].
    destruct (Validation.email_field is_email trim toLowerCase (obj_get "email" fields))
      as [e2 e].
    destruct (Validation.role_field (obj_get "role" fields)) as [e3 r].
    destruct e1; simpl in H; [|discriminate].
    destruct e2; simpl in H; [|discriminate].
    destruct e3; simpl in H; [|discriminate].
    destruct (Validation.some_defined (Validation.mkUpdates n e r)) eqn:Hs;
      [|discriminate].
    inversion H; subst u. simpl.
    unfold Validation.some_defined in Hs. simpl in Hs.
    destruct n; [left; discriminate|]. destruct e; [right; left; discriminate|].
    destruct r; [right; right; discriminate|discriminate].
Qed.

(** X15.  What an accepted update carries was checked and normalised: a
    name had 2 to 150 characters and is stored trimmed; an email matched
    the email pattern, had at most 220 characters and is stored lower-cased
    and trimmed. *)
Theorem updateUserSchema_normalises
    (fields : list (string * JsVal)) (u : Validation.Updates) :
  Validation.updateUserSchema is_email trim toLowerCase (JObj fields) = Validation.Success u ->
  (forall s, obj_get "name" fields = JStr s ->
             (2 <= String.length s <= 150)%nat /\ Validation.name u = Some (trim s))
  /\ (forall s, obj_get "email" fields = JStr s ->
                is_email s = true /\ (String.length s <= 220)%nat
                /\ Validation.email u = Some (trim (toLowerCase s)))
  /\ (obj_get "name" fields = JUndef -> Validation.name u = None)
  /\ (obj_get "email" fields = JUndef -> Validation.email u = None).
Proof.
  unfold Validation.updateUserSchema.
  destruct (Validation.name_field trim (obj_get "name" fields)) as [e1 n] eqn:Hn.
  destruct (Validation.email_field is_email trim toLowerCase (obj_get "email" fields))
    as [e2 e] eqn:He.
  destruct (Validation.role_field (obj_get "role" fields)) as [e3 r].
  destruct e1; simpl; [|discriminate].
  destruct e2; simpl; [|discriminate].
  destruct e3; simpl; [|discriminate].
  destruct (Validation.some_defined (Validation.mkUpdates n e r)); [|discriminate].
  intros H. inversion H; subst u. simpl. split_all.
  - intros s Hs. rewrite Hs in Hn. simpl in Hn.
    destruct (String.length s <? 2)%nat eqn:H2; [discriminate|].
    destruct (150 <? String.length s)%nat eqn:H150; [discriminate|].
    apply Nat.ltb_ge in H2, H150. inversion Hn. split; [lia | reflexivity].
  - intros s Hs. rewrite Hs in He. simpl in He.
    destruct (is_email s); [|discriminate].
    destruct (220 <? String.length s)%nat eqn:H220; [discriminate|].
    apply Nat.ltb_ge in H220. inversion He. split_all; [reflexivity | lia | reflexivity].
  - intros Hs. rewrite Hs in Hn. inversion Hn. reflexivity.
  - intros Hs. rewrite Hs in He. inversion He. reflexivity.
Qed.

End SchemaFacts.

(** ** The users service: what the table looks like afterwards *)

(** X16.  Whatever its outcome, [updateUser] keeps the number of rows, the
    id, password and creation time each row has, and the rows with another
    id; in which order the table lists its rows is left aside. *)
Theorem updateUser_preserves (uid : Z) (u : Validation.Updates) (w : World) :
  let w' := exec (Service.updateUser uid u) w in
  let kept r := (u_id r, u_password r, u_created_at r) in
  List.length (rows w') = List.length (rows w)
  /\ Permutation (map kept (rows w')) (map kept (rows w))
  /\ Permutation (filter (fun r => negb (Service.has_id uid r)) (rows w'))
                 (filter (fun r => negb (Service.has_id uid r)) (rows w)).
Proof.
  cbv zeta. unfold exec.
  destruct (db_fault w) as [e|] eqn:Hf.
  - destruct (service_fault uid u w e Hf) as [-> _]. split_all; reflexivity.
  - rewrite (updateUser_run uid u w Hf).
    destruct (filter (Service.has_id uid) (rows w)) as [|r rest];
      [split_all; reflexivity|].
    destruct (Service.email_taken (rows w) uid u); [split_all; reflexivity|].
    simpl. rewrite !map_map, length_map. split_all.
    + reflexivity.
    + apply Permutation_refl'. apply map_ext. intros x.
      destruct (Service.has_id uid x); reflexivity.
    + apply Permutation_refl'.
      induction (rows w) as [|x xs IH]; simpl; [reflexivity|].
      destruct (Service.has_id uid x) eqn:Hx; simpl.
      * unfold Service.has_id at 1. simpl. unfold Service.has_id in Hx. rewrite Hx.
        simpl. exact IH.
      * rewrite Hx. simpl. rewrite IH. reflexivity.
Qed.

(** X17.  Asked to update or delete an id of the column's range that no
    row has, the service throws the error [User not found] with status 404
    after the one lookup and logs it: no update or delete statement is sent
    and the table stays as it was. *)
Theorem service_not_found (uid : Z) (u : Validation.Updates) (w : World) :
  - 2 ^ 31 <= uid < 2 ^ 31 ->
  db_fault w = None ->
  Forall (fun r => u_id r <> uid) (rows w) ->
  fst (Service.updateUser uid u w) = Throw (mkError "User not found" (Some 404))
  /\ fst (Service.deleteUser uid w) = Throw (mkError "User not found" (Some 404))
  /\ rows (exec (Service.updateUser uid u) w) = rows w
  /\ rows (exec (Service.deleteUser uid) w) = rows w
  /\ emitted (Service.updateUser uid u) w =
       [Db DbSelect;
        LogError ("Error updating user " ++ num_str uid) (mkError "User not found" (Some 404))]
  /\ emitted (Service.deleteUser uid) w =
       [Db DbSelect;
        LogError ("Error deleting user " ++ num_str uid) (mkError "User not found" (Some 404))].
Proof.
  intros _ Hf Hnone. apply filter_has_id_nil in Hnone.
  unfold emitted, exec. rewrite (updateUser_run uid u w Hf), (deleteUser_run uid w Hf), Hnone.
  simpl. rewrite !skipn_length_app. split_all; reflexivity.
Qed.

Lemma service_not_found_witness :
  fst (Service.updateUser 9 Sample.rename Sample.table)
    = Throw (mkError "User not found" (Some 404))
  /\ fst (Service.deleteUser 9 Sample.table) = Throw (mkError "User not found" (Some 404))
  /\ rows (exec (Service.updateUser 9 Sample.rename) Sample.table) = rows Sample.table
  /\ rows (exec (Service.deleteUser 9) Sample.table) = rows Sample.table
  /\ emitted (Service.updateUser 9 Sample.rename) Sample.table =
       [Db DbSelect;
        LogError ("Error updating user " ++ num_str 9) (mkError "User not found" (Some 404))]
  /\ emitted (Service.deleteUser 9) Sample.table =
       [Db DbSelect;
        LogError ("Error deleting user " ++ num_str 9) (mkError "User not found" (Some 404))].
Proof.
  apply (service_not_found 9 Sample.rename Sample.table).
  - lia.
  - reflexivity.
  - repeat constructor; discriminate.
Defined.

(** X18.  After a successful [deleteUser] the id is gone: looking it up
    gives [null], every other id is looked up as before, and the object
    returned is the one a lookup gave before the deletion. *)
Theorem deleteUser_then_lookup (uid : Z) (w w' : World) (v : JsVal) :
  Service.deleteUser uid w = (Ok v, w') ->
  fst (Service.getUserById uid w') = Ok None
  /\ fst (Service.getUserById uid w) = Ok (Some v)
  /\ (forall j, j <> uid ->
                fst (Service.getUserById j w') = fst (Service.getUserById j w))
  /\ Forall (fun r => u_id r <> uid) (rows w').
Proof.
  intros H. destruct (db_fault w) as [e|] eqn:Hf.
  { destruct (service_fault uid (Validation.mkUpdates None None None) w e Hf)
      as [_ [_ [_ [Hd _]]]].
    rewrite H in Hd. discriminate. }
  rewrite (deleteUser_run uid w Hf) in H.
  destruct (filter (Service.has_id uid) (rows w)) as [|r rest] eqn:Hr; [discriminate|].
  inversion H; subst v w'. clear H.
  rewrite (getUserById_run uid w Hf), Hr.
  split_all.
  - rewrite getUserById_run by reflexivity. simpl.
    rewrite filter_has_id_removed, Z.eqb_refl. reflexivity.
  - reflexivity.
  - intros j Hj. rewrite getUserById_run by reflexivity.
    rewrite (getUserById_run j w Hf). simpl.
    rewrite filter_has_id_removed.
    destruct (j =? uid) eqn:E; [apply Z.eqb_eq in E; congruence|reflexivity].
  - simpl. apply filter_has_id_nil.
    rewrite filter_has_id_removed, Z.eqb_refl. reflexivity.
Qed.

Lemma deleteUser_then_lookup_witness :
  fst (Service.getUserById 2 (exec (Service.deleteUser 2) Sample.table)) = Ok None
  /\ fst (Service.getUserById 2 Sample.table)
     = Ok (Some (Service.select_row Service.public_columns Sample.ann))
  /\ (forall j, j <> 2 ->
                fst (Service.getUserById j (exec (Service.deleteUser 2) Sample.table))
                = fst (Service.getUserById j Sample.table))
  /\ Forall (fun r => u_id r <> 2) (rows (exec (Service.deleteUser 2) Sample.table)).
Proof.
  apply (deleteUser_then_lookup 2 Sample.table (exec (Service.deleteUser 2) Sample.table)
           (Service.select_row Service.public_columns Sample.ann)).
  reflexivity.
Defined.

(** X19.  Round trip: the object a successful [updateUser] returns is the
    one a lookup of that id gives afterwards; it carries the id, the time
    of the update and every value the update set; other ids are looked up
    as before. *)
Theorem updateUser_then_lookup
    (uid : Z) (u : Validation.Updates) (w w' : World) (v : JsVal) :
  Service.updateUser uid u w = (Ok v, w') ->
  fst (Service.getUserById uid w') = Ok (Some v)
  /\ prop "id" v = JNum uid
  /\ prop "updated_at" v = JDate (clock w)
  /\ (forall n, Validation.name u = Some n -> prop "name" v = JStr n)
  /\ (forall e, Validation.email u = Some e -> prop "email" v = JStr e)
  /\ (forall r, Validation.role u = Some r -> prop "role" v = JStr r)
  /\ (forall j, j <> uid ->
                fst (Service.getUserById j w') = fst (Service.getUserById j w)).
Proof.
  intros H. destruct (db_fault w) as [e|] eqn:Hf.
  { destruct (service_fault uid u w e Hf) as [_ [_ [Hu _]]].
    rewrite H in Hu. discriminate. }
  rewrite (updateUser_run uid u w Hf) in H.
  destruct (filter (Service.has_id uid) (rows w)) as [|r rest] eqn:Hr; [discriminate|].
  destruct (Service.email_taken (rows w) uid u); [discriminate|].
  inversion H; subst v w'. clear H.
  assert (Hid : u_id r = uid).
  { assert (Hin : In r (filter (Service.has_id uid) (rows w))) by (rewrite Hr; left; reflexivity).
    apply filter_In in Hin. destruct Hin as [_ Hin]. apply Z.eqb_eq. exact Hin. }
  split_all.
  - rewrite getUserById_run by reflexivity. simpl.
    rewrite filter_has_id_updated, Hr. reflexivity.
  - simpl. rewrite Hid. reflexivity.
  - reflexivity.
  - intros n Hn. simpl. rewrite Hn. reflexivity.
  - intros e He. simpl. rewrite He. reflexivity.
  - intros x Hx. simpl. rewrite Hx. reflexivity.
  - intros j Hj. rewrite getUserById_run by reflexivity.
    rewrite (getUserById_run j w Hf). simpl.
    rewrite filter_has_id_other; [reflexivity | intros x; reflexivity | exact Hj].
Qed.

Lemma updateUser_then_lookup_witness :
  let w' := exec (Service.updateUser 2 Sample.rename) Sample.table in
  let v := Service.select_row Service.public_columns
             (mkUser 2 "Anna" "ann@example.com" "$2b$10$hashhashhash" "user"
                1700000000000 1700000999000) in
  fst (Service.getUserById 2 w') = Ok (Some v)
  /\ prop "id" v = JNum 2
  /\ prop "updated_at" v = JDate (clock Sample.table)
  /\ (forall n, Validation.name Sample.rename = Some n -> prop "name" v = JStr n)
  /\ (forall e, Validation.email Sample.rename = Some e -> prop "email" v = JStr e)
  /\ (forall r, Validation.role Sample.rename = Some r -> prop "role" v = JStr r)
  /\ (forall j, j <> 2 ->
                fst (Service.getUserById j w') = fst (Service.getUserById j Sample.table)).
Proof.
  cbv zeta.
  apply (updateUser_then_lookup 2 Sample.rename Sample.table
           (exec (Service.updateUser 2 Sample.rename) Sample.table)).
  reflexivity.
Defined.

(** X20.  A lookup never changes the table.  When it finds a user, that is
    the public view of a stored row with the id asked for; when it gives
    [null], no row has that id. *)
Theorem getUserById_finds (uid : Z) (w : World) :
  rows (exec (Service.getUserById uid) w) = rows w
  /\ (forall v, fst (Service.getUserById uid w) = Ok (Some v) ->
                exists r, In r (rows w) /\ u_id r = uid
                          /\ v = JObj [("id", JNum uid); ("email", JStr (u_email r));
                                       ("name", JStr (u_name r)); ("role", JStr (u_role r));
                                       ("created_at", JDate (u_created_at r));
                                       ("updated_at", JDate (u_updated_at r))])
  /\ (fst (Service.getUserById uid w) = Ok None ->
      Forall (fun r => u_id r <> uid) (rows w)).
Proof.
  destruct (db_fault w) as [e|] eqn:Hf.
  - destruct (service_fault uid (Validation.mkUpdates None None None) w e Hf)
      as [_ [_ [_ [_ [Hg _]]]]].
    rewrite Hg. split_all; try discriminate.
    unfold exec, Service.getUserById. step_handler. rewrite Hf. reflexivity.
  - unfold exec. rewrite (getUserById_run uid w Hf). simpl. split_all.
    + reflexivity.
    + intros v Hv.
      destruct (filter (Service.has_id uid) (rows w)) as [|r rest] eqn:Hr; [discriminate|].
      assert (Hin : In r (filter (Service.has_id uid) (rows w)))
        by (rewrite Hr; left; reflexivity).
      apply filter_In in Hin. destruct Hin as [Hin Hid]. apply Z.eqb_eq in Hid.
      exists r. split_all; auto. inversion Hv. subst uid. reflexivity.
    + intros Hv. apply filter_has_id_nil.
      destruct (filter (Service.has_id uid) (rows w)); [reflexivity|discriminate].
Qed.

Lemma getUserById_finds_witness :
  exists r, In r (rows Sample.table) /\ u_id r = 5
            /\ Service.select_row Service.public_columns Sample.bob
               = JObj [("id", JNum 5); ("email", JStr (u_email r));
                       ("name", JStr (u_name r)); ("role", JStr (u_role r));
                       ("created_at", JDate (u_created_at r));
                       ("updated_at", JDate (u_updated_at r))].
Proof.
  apply (proj1 (proj2 (getUserById_finds 5 Sample.table))). reflexivity.
Defined.

(** ** The user controllers *)

Ltac step_controller :=
  unfold Controller.getUserById, Controller.updateUser, Controller.deleteUser,
    Controller.validation_failed, Controller.not_found_or_next;
  unfold exec, try_catch, bind, ret, throw, lift, emit, get_user; simpl.

Section ControllerFacts.

Variable is_email : string -> bool.
Variable trim : string -> string.
Variable toLowerCase : string -> string.
Variable fmt : list Validation.Issue -> JsVal.

(** X21.  An id that does not validate is answered 400 with the
    validation details by the three controllers on [/:id], before the
    principal or the body is looked at; the table is neither read nor
    changed. *)
Theorem invalid_id_is_400 (req : Request) (w : World) (error : list Validation.Issue) :
  Validation.userIdSchema (params_id req) = Validation.Failure error ->
  let answer :=
    (Ok tt, mkWorld (user w) (rows w) (db_fault w) (clock w)
              (trace w ++ [Send 400 (JObj [("error", JStr "Validation failed");
                                          ("details", fmt error)])])) in
  Controller.getUserById fmt req w = answer
  /\ Controller.updateUser is_email trim toLowerCase fmt req w = answer
  /\ Controller.deleteUser fmt req w = answer.
Proof.
  intros Hid. cbv zeta. step_controller. rewrite Hid. simpl. split_all; reflexivity.
Qed.

(** X22.  Reading a user is for that user and for administrators: a
    requester who is neither, or a request without principal, is answered
    403 and the table is not read. *)
Theorem getUserById_forbidden (req : Request) (w : World) (uid : Z) :
  Validation.userIdSchema (params_id req) = Validation.Success uid ->
  (forall p, user w = Some p -> role p <> "admin" /\ id p <> uid) ->
  Controller.getUserById fmt req w =
    (Ok tt, mkWorld (user w) (rows w) (db_fault w) (clock w)
              (trace w ++ [Send 403 (JObj [("error", JStr "Forbidden");
                                          ("message",
                                           JStr "You can only access your own user information")])])).
Proof.
  intros Hid Hp. step_controller. rewrite Hid. simpl.
  destruct (user w) as [p|] eqn:Hu; simpl; [|rewrite ?Hu; reflexivity].
  destruct (Hp p eq_refl) as [Hr Hi].
  unfold Controller.is_admin, Controller.is_self.
  apply String.eqb_neq in Hr. apply Z.eqb_neq in Hi. rewrite Hr, Hi. simpl.
  rewrite ?Hu. reflexivity.
Qed.

(** X23.  Deleting a user is for that user and for administrators: any
    other requester is answered 403, no statement is sent and the table
    stays as it was. *)
Theorem deleteUser_forbidden (req : Request) (w : World) (uid : Z) (p : Principal) :
  Validation.userIdSchema (params_id req) = Validation.Success uid ->
  user w = Some p ->
  role p <> "admin" ->
  id p <> uid ->
  Controller.deleteUser fmt req w =
    (Ok tt, mkWorld (user w) (rows w) (db_fault w) (clock w)
              (trace w ++ [Send 403 (JObj [("error", JStr "Forbidden");
                                          ("message",
                                           JStr "You can only delete your own account")])])).
Proof.
  intros Hid Hu Hr Hi. step_controller. rewrite Hid. simpl. rewrite Hu. simpl.
  unfold Controller.is_admin, Controller.is_self.
  apply String.eqb_neq in Hr. apply Z.eqb_neq in Hi. rewrite Hr, Hi. simpl.
  rewrite ?Hu. reflexivity.
Qed.

(** X24.  Updating a user is for that user and for administrators: for any
    other requester no statement is sent and the table stays as it was;
    the answer is 403, or 400 when the body does not validate. *)
Theorem updateUser_forbidden (req : Request) (w : World) (uid : Z) (p : Principal) :
  Validation.userIdSchema (params_id req) = Validation.Success uid ->
  user w = Some p ->
  role p <> "admin" ->
  id p <> uid ->
  let run := Controller.updateUser is_email trim toLowerCase fmt req in
  rows (exec run w) = rows w
  /\ count is_db (emitted run w) = 0%nat
  /\ match Validation.updateUserSchema is_email trim toLowerCase (body req) with
     | Validation.Success _ =>
         emitted run w =
           [Send 403 (JObj [("error", JStr "Forbidden");
                            ("message", JStr "You can only change your own information")])]
     | Validation.Failure error =>
         emitted run w =
           [Send 400 (JObj [("error", JStr "Validation failed"); ("details", fmt error)])]
     end.
Proof.
  intros Hid Hu Hr Hi. cbv zeta. unfold emitted. step_controller. rewrite Hid. simpl.
  destruct (Validation.updateUserSchema is_email trim toLowerCase (body req)) as [u|error];
    simpl.
  - rewrite Hu. simpl. unfold Controller.is_admin, Controller.is_self.
    apply String.eqb_neq in Hr. apply Z.eqb_neq in Hi. rewrite Hr, Hi. simpl.
    rewrite skipn_length_app. split_all; reflexivity.
  - rewrite skipn_length_app. split_all; reflexivity.
Qed.

(** X25.  Asked by an administrator for an id of the column's range that
    no row has, the three controllers on [/:id] answer 404 [User not found]
    and leave the table as it was. *)
Theorem missing_user_is_404
    (req : Request) (w : World) (uid : Z) (p : Principal) (u : Validation.Updates) :
  Validation.userIdSchema (params_id req) = Validation.Success uid ->
  uid < 2 ^ 31 ->
  Validation.updateUserSchema is_email trim toLowerCase (body req) = Validation.Success u ->
  user w = Some p ->
  role p = "admin" ->
  db_fault w = None ->
  Forall (fun r => u_id r <> uid) (rows w) ->
  let not_found := [(404, JObj [("error", JStr "User not found")])] in
  responses (emitted (Controller.getUserById fmt req) w) = not_found
  /\ responses (emitted (Controller.updateUser is_email trim toLowerCase fmt req) w) = not_found
  /\ responses (emitted (Controller.deleteUser fmt req) w) = not_found
  /\ rows (exec (Controller.getUserById fmt req) w) = rows w
  /\ rows (exec (Controller.updateUser is_email trim toLowerCase fmt req) w) = rows w
  /\ rows (exec (Controller.deleteUser fmt req) w) = rows w.
Proof.
  intros Hid _ Hbody Hu Hr Hf Hnone. cbv zeta. apply filter_has_id_nil in Hnone.
  unfold emitted. step_controller. rewrite Hid, Hbody. simpl. rewrite Hu. simpl.
  unfold Controller.is_admin. rewrite Hr. simpl.
  rewrite getUserById_run, updateUser_run, deleteUser_run by (simpl; exact Hf).
  simpl. rewrite Hnone. simpl.
  repeat rewrite <- app_assoc. rewrite !skipn_length_app. simpl.
  split_all; reflexivity.
Qed.

(** X26.  An update by the user themselves that sets no role, or by an
    administrator, is carried out when the row exists and the email is
    free: the answer is 200 with the updated user, the row gets the new
    values and the time of the update, and its id, password and creation
    time stay. *)
Theorem updateUser_carried_out
    (req : Request) (w : World) (uid : Z) (p : Principal) (u : Validation.Updates)
    (r : UserRow) (rest : list UserRow) :
  Validation.userIdSchema (params_id req) = Validation.Success uid ->
  Validation.updateUserSchema is_email trim toLowerCase (body req) = Validation.Success u ->
  user w = Some p ->
  role p = "admin" \/ (id p = uid /\ Validation.role u = None) ->
  db_fault w = None ->
  filter (Service.has_id uid) (rows w) = r :: rest ->
  Service.email_taken (rows w) uid u = false ->
  let run := Controller.updateUser is_email trim toLowerCase fmt req in
  let r' := mkUser (u_id r)
              (match Validation.name u with Some n => n | None => u_name r end)
              (match Validation.email u with Some e => e | None => u_email r end)
              (u_password r)
              (match Validation.role u with Some x => x | None => u_role r end)
              (u_created_at r) (clock w) in
  responses (emitted run w) =
    [(200, JObj [("message", JStr "User updated successfully");
                 ("user", Service.select_row Service.public_columns r')])]
  /\ filter (Service.has_id uid) (rows (exec run w)) =
       r' :: map (Service.set_columns u (clock w)) rest.
Proof.
  intros Hid Hbody Hu Hauth Hf Hr Hfree. cbv zeta.
  assert (Hgate : (negb (Controller.is_admin p) && negb (Controller.is_self p uid) = false)
                  /\ (negb (Controller.is_admin p)
                      && match Validation.role u with Some _ => true | None => false end
                      = false)).
  { unfold Controller.is_admin, Controller.is_self.
    destruct Hauth as [Ha|[Hs Hn]].
    - rewrite Ha. split; reflexivity.
    - rewrite Hn. apply Z.eqb_eq in Hs. rewrite Hs.
      destruct (String.eqb (role p) "admin"); split; reflexivity. }
  destruct Hgate as [Hg1 Hg2].
  unfold emitted. step_controller. rewrite Hid, Hbody. simpl. rewrite Hu. simpl.
  rewrite Hg1, Hg2.
  rewrite updateUser_run by (simpl; exact Hf).
  simpl. rewrite Hr, Hfree. simpl.
  repeat rewrite <- app_assoc. rewrite skipn_length_app. simpl.
  rewrite filter_has_id_updated, Hr. split; reflexivity.
Qed.

(** X27.  A deletion by the user themselves or by an administrator is
    carried out when the row exists: the answer is 200 with a message and
    no user data, no row with that id is left and the other rows stay. *)
Theorem deleteUser_carried_out
    (req : Request) (w : World) (uid : Z) (p : Principal) (r : UserRow) (rest : list UserRow) :
  Validation.userIdSchema (params_id req) = Validation.Success uid ->
  user w = Some p ->
  role p = "admin" \/ id p = uid ->
  db_fault w = None ->
  filter (Service.has_id uid) (rows w) = r :: rest ->
  let run := Controller.deleteUser fmt req in
  responses (emitted run w) = [(200, JObj [("message", JStr "User deleted successfully")])]
  /\ rows (exec run w) = filter (fun x => negb (Service.has_id uid x)) (rows w)
  /\ Forall (fun x => u_id x <> uid) (rows (exec run w)).
Proof.
  intros Hid Hu Hauth Hf Hr. cbv zeta.
  assert (Hgate : negb (Controller.is_admin p) && negb (Controller.is_self p uid) = false).
  { unfold Controller.is_admin, Controller.is_self.
    destruct Hauth as [Ha|Hs].
    - rewrite Ha. reflexivity.
    - apply Z.eqb_eq in Hs. rewrite Hs. apply andb_false_r. }
  unfold emitted. step_controller. rewrite Hid. simpl. rewrite Hu. simpl. rewrite Hgate.
  rewrite deleteUser_run by (simpl; exact Hf).
  simpl. rewrite Hr. simpl.
  repeat rewrite <- app_assoc. rewrite skipn_length_app. simpl.
  split_all; try reflexivity.
  apply filter_has_id_nil. rewrite filter_has_id_removed, Z.eqb_refl. reflexivity.
Qed.


End ControllerFacts.

(** ** Reading never writes *)

Lemma ro_ret {A} (a : A) : read_only (ret a).
Proof. intros w. reflexivity. Qed.

Lemma ro_throw {A} (e : JsError) : read_only (@throw A e).
Proof. intros w. reflexivity. Qed.

Lemma ro_emit (ev : Event) : read_only (emit ev).
Proof. intros w. reflexivity. Qed.

Lemma ro_get_user : read_only get_user.
Proof. intros w. reflexivity. Qed.

Lemma ro_get_rows : read_only get_rows.
Proof. intros w. reflexivity. Qed.

Lemma ro_statement (op : DbOp) : read_only (statement op).
Proof. intros w. unfold statement. destruct (db_fault w); reflexivity. Qed.

Lemma ro_bind {A B} (m : M A) (k : A -> M B) :
  read_only m -> (forall a, read_only (k a)) -> read_only (bind m k).
Proof.
  intros Hm Hk w. unfold bind. specialize (Hm w).
  destruct (m w) as [[a|e] w']; simpl in *; [rewrite Hk|]; exact Hm.
Qed.

Lemma ro_try_catch {A} (m : M A) (h : JsError -> M A) :
  read_only m -> (forall e, read_only (h e)) -> read_only (try_catch m h).
Proof.
  intros Hm Hh w. unfold try_catch. specialize (Hm w).
  destruct (m w) as [[a|e] w']; simpl in *; [|rewrite Hh]; exact Hm.
Qed.

Lemma ro_and_then (a b : M unit) :
  read_only a -> read_only b -> read_only (App.and_then a b).
Proof.
  intros Ha Hb w. unfold App.and_then. specialize (Ha w).
  destruct (a w) as [[[]|e] w']; simpl in *; [|exact Ha].
  destruct (Routes.called_next w w'); simpl; [rewrite Hb|]; exact Ha.
Qed.

Ltac ro :=
  repeat first
    [ apply ro_emit | apply ro_ret | apply ro_throw | apply ro_get_user
    | apply ro_get_rows | apply ro_statement | apply ro_try_catch | apply ro_bind
    | match goal with
      | |- forall _, _ => intro
      | |- read_only (match ?x with _ => _ end) => destruct x
      | |- read_only (if ?x then _ else _) => destruct x
      end ].

(** X29.  The two GET routes only read: whatever the request, the
    principal and the state of the driver, [GET /] and [GET /:id] leave
    every row of the table as it was. *)
Theorem get_routes_read_only
    is_email trim toLowerCase fmt (pattern : string) (req : Request) (w : World) :
  rows (exec (Routes.dispatch is_email trim toLowerCase fmt Routes.GET pattern req) w)
  = rows w.
Proof.
  assert (Hall : read_only (Controller.fetchAllUsers req)).
  { unfold Controller.fetchAllUsers, Service.getAllUsers. ro. }
  assert (Hone : read_only (Controller.getUserById fmt req)).
  { unfold Controller.getUserById, Controller.validation_failed, Service.getUserById. ro. }
  assert (Hguard : read_only (Auth.requireAuth req)).
  { unfold Auth.requireAuth. ro. }
  assert (Hrun : forall hs,
             Forall (fun h => read_only (Routes.handle is_email trim toLowerCase fmt h req)) hs ->
             read_only (Routes.run is_email trim toLowerCase fmt hs req)).
  { induction hs as [|h hs IH]; intros Hhs; [apply ro_ret|].
    inversion Hhs; subst. rewrite run_cons. apply ro_and_then; auto. }
  unfold exec, Routes.dispatch.
  destruct (Routes.handlers_of Routes.GET pattern Routes.router) as [hs|] eqn:Hhs;
    [|reflexivity].
  apply Hrun. simpl in Hhs.
  destruct (String.eqb pattern "/"); simpl in Hhs.
  - inversion Hhs. repeat constructor. exact Hall.
  - destruct (String.eqb pattern "/:id"); simpl in Hhs; [|discriminate].
    inversion Hhs. repeat constructor; assumption.
Qed.

(** ** Runs on sample inputs *)

Lemma invalid_id_is_400_witness :
  let answer :=
    (Ok tt, mkWorld (Some Sample.member) [Sample.ann; Sample.bob] None 1700000999000
              [Send 400 (JObj [("error", JStr "Validation failed"); ("details", JNull)])]) in
  Controller.getUserById Sample.no_details (Sample.id_request "2b" JUndef)
    (Sample.as_user (Some Sample.member)) = answer
  /\ Controller.updateUser Sample.any_email Sample.unchanged Sample.unchanged Sample.no_details
       (Sample.id_request "2b" JUndef) (Sample.as_user (Some Sample.member)) = answer
  /\ Controller.deleteUser Sample.no_details (Sample.id_request "2b" JUndef)
       (Sample.as_user (Some Sample.member)) = answer.
Proof.
  apply (invalid_id_is_400 Sample.any_email Sample.unchanged Sample.unchanged Sample.no_details
           (Sample.id_request "2b" JUndef) (Sample.as_user (Some Sample.member))
           [Validation.issue "id" (Some "User id must be a numeric string")]).
  reflexivity.
Defined.

Lemma getUserById_forbidden_witness :
  Controller.getUserById Sample.no_details (Sample.id_request "5" JUndef)
    (Sample.as_user (Some Sample.member))
  = (Ok tt, mkWorld (Some Sample.member) [Sample.ann; Sample.bob] None 1700000999000
              [Send 403 (JObj [("error", JStr "Forbidden");
                               ("message",
                                JStr "You can only access your own user information")])]).
Proof.
  apply (getUserById_forbidden Sample.no_details (Sample.id_request "5" JUndef)
           (Sample.as_user (Some Sample.member)) 5).
  - reflexivity.
  - intros p Hp. inversion Hp. split; discriminate.
Defined.

Lemma deleteUser_forbidden_witness :
  Controller.deleteUser Sample.no_details (Sample.id_request "5" JUndef)
    (Sample.as_user (Some Sample.member))
  = (Ok tt, mkWorld (Some Sample.member) [Sample.ann; Sample.bob] None 1700000999000
              [Send 403 (JObj [("error", JStr "Forbidden");
                               ("message", JStr "You can only delete your own account")])]).
Proof.
  apply (deleteUser_forbidden Sample.no_details (Sample.id_request "5" JUndef)
           (Sample.as_user (Some Sample.member)) 5 Sample.member);
    try reflexivity; discriminate.
Defined.

Lemma updateUser_forbidden_witness :
  let run := Controller.updateUser Sample.any_email Sample.unchanged Sample.unchanged
               Sample.no_details (Sample.id_request "5" (JObj [("name", JStr "Robert")])) in
  rows (exec run (Sample.as_user (Some Sample.member))) = [Sample.ann; Sample.bob]
  /\ count is_db (emitted run (Sample.as_user (Some Sample.member))) = 0%nat
  /\ emitted run (Sample.as_user (Some Sample.member)) =
       [Send 403 (JObj [("error", JStr "Forbidden");
                        ("message", JStr "You can only change your own information")])].
Proof.
  apply (updateUser_forbidden Sample.any_email Sample.unchanged Sample.unchanged
           Sample.no_details (Sample.id_request "5" (JObj [("name", JStr "Robert")]))
           (Sample.as_user (Some Sample.member)) 5 Sample.member);
    try reflexivity; discriminate.
Defined.

Lemma missing_user_is_404_witness :
  let req := Sample.id_request "9" (JObj [("name", JStr "Zed")]) in
  let w := Sample.as_user (Some Sample.admin) in
  let not_found := [(404, JObj [("error", JStr "User not found")])] in
  responses (emitted (Controller.getUserById Sample.no_details req) w) = not_found
  /\ responses (emitted (Controller.updateUser Sample.any_email Sample.unchanged
                           Sample.unchanged Sample.no_details req) w) = not_found
  /\ responses (emitted (Controller.deleteUser Sample.no_details req) w) = not_found
  /\ rows (exec (Controller.getUserById Sample.no_details req) w) = rows w
  /\ rows (exec (Controller.updateUser Sample.any_email Sample.unchanged
                   Sample.unchanged Sample.no_details req) w) = rows w
  /\ rows (exec (Controller.deleteUser Sample.no_details req) w) = rows w.
Proof.
  apply (missing_user_is_404 Sample.any_email Sample.unchanged Sample.unchanged
           Sample.no_details (Sample.id_request "9" (JObj [("name", JStr "Zed")]))
           (Sample.as_user (Some Sample.admin)) 9 Sample.admin
           (Validation.mkUpdates (Some "Zed") None None));
    try reflexivity.
  repeat constructor; discriminate.
Defined.

Lemma updateUser_carried_out_witness :
  let run := Controller.updateUser Sample.any_email Sample.unchanged Sample.unchanged
               Sample.no_details (Sample.id_request "2" (JObj [("name", JStr "Anna")])) in
  let r' := mkUser 2 "Anna" "ann@example.com" "$2b$10$hashhashhash" "user"
              1700000000000 1700000999000 in
  responses (emitted run (Sample.as_user (Some Sample.member))) =
    [(200, JObj [("message", JStr "User updated successfully");
                 ("user", Service.select_row Service.public_columns r')])]
  /\ filter (Service.has_id 2) (rows (exec run (Sample.as_user (Some Sample.member)))) = [r'].
Proof.
  apply (updateUser_carried_out Sample.any_email Sample.unchanged Sample.unchanged
           Sample.no_details (Sample.id_request "2" (JObj [("name", JStr "Anna")]))
           (Sample.as_user (Some Sample.member)) 2 Sample.member
           (Validation.mkUpdates (Some "Anna") None None) Sample.ann []);
    try reflexivity.
  right. split; reflexivity.
Defined.

Lemma deleteUser_carried_out_witness :
  let run := Controller.deleteUser Sample.no_details (Sample.id_request "2" JUndef) in
  let w := Sample.as_user (Some Sample.member) in
  responses (emitted run w) = [(200, JObj [("message", JStr "User deleted successfully")])]
  /\ rows (exec run w) = filter (fun x => negb (Service.has_id 2 x)) (rows w)
  /\ Forall (fun x => u_id x <> 2) (rows (exec run w)).
Proof.
  apply (deleteUser_carried_out Sample.no_details (Sample.id_request "2" JUndef)
           (Sample.as_user (Some Sample.member)) 2 Sample.member Sample.ann []);
    try reflexivity.
  right. reflexivity.
Defined.


Lemma updateUserSchema_needs_a_field_witness :
  Validation.updateUserSchema Sample.any_email Sample.unchanged Sample.unchanged
    (JObj [("password", JStr "hunter2"); ("id", JNum 1)])
  = Validation.Failure
      [Validation.issue "" (Some "At least one field must be provided for update")].
Proof.
  apply (proj1 (updateUserSchema_needs_a_field Sample.any_email Sample.unchanged
                  Sample.unchanged (JObj [("password", JStr "hunter2"); ("id", JNum 1)]))
           [("password", JStr "hunter2"); ("id", JNum 1)]);
    reflexivity.
Defined.

Lemma updateUserSchema_normalises_witness :
  (2 <= String.length "Anna" <= 150)%nat
  /\ Validation.name (Validation.mkUpdates (Some "Anna") (Some "ann@example.org") None)
     = Some (Sample.unchanged "Anna").
Proof.
  apply (proj1 (updateUserSchema_normalises Sample.any_email Sample.unchanged Sample.unchanged
                  [("name", JStr "Anna"); ("email", JStr "ann@example.org")]
                  (Validation.mkUpdates (Some "Anna") (Some "ann@example.org") None)
                  eq_refl) "Anna").
  reflexivity.
Defined.

Lemma admission_tier_of_token_witness :
  queries (emitted (App.admission Sample.accepting_verifier (Sample.provider Sample.allow)
                      Sample.bearer_request) (Sample.world (Some Sample.admin)))
  = [mkOptions "LIVE" "1m" (Some 10) "${role}-rate-limit"].
Proof.
  apply (admission_tier_of_token Sample.accepting_verifier (Sample.provider Sample.allow)
           Sample.bearer_request (Sample.world (Some Sample.admin))
           "eyJhbGciOi.expired.sig" Sample.claims);
    reflexivity.
Defined.

Lemma admission_guest_without_credential_witness :
  queries (emitted (App.admission Sample.rejecting_verifier (Sample.provider Sample.allow)
                      Sample.bearer_request) (Sample.world (Some Sample.admin)))
  = [mkOptions "LIVE" "1m" (Some 5) "${role}-rate-limit"].
Proof.
  apply (admission_guest_without_credential Sample.rejecting_verifier
           (Sample.provider Sample.allow) Sample.bearer_request
           (Sample.world (Some Sample.admin))).
  intros t _ _. exists Sample.expired. reflexivity.
Defined.

Lemma refused_request_stops_before_routes_witness :
  let run := App.users Sample.accepting_verifier
               (Sample.provider (Sample.deny true false false))
               Sample.any_email Sample.unchanged Sample.unchanged Sample.no_details
               Routes.GET "/" Sample.bearer_request in
  rows (exec run Sample.table) = rows Sample.table
  /\ count is_db (emitted run Sample.table) = 0%nat
  /\ exists c b, responses (emitted run Sample.table) = [(c, b)] /\ (c = 403 \/ c = 500).
Proof.
  apply (refused_request_stops_before_routes Sample.accepting_verifier
           (Sample.provider (Sample.deny true false false))
           Sample.any_email Sample.unchanged Sample.unchanged Sample.no_details
           Routes.GET "/" Sample.bearer_request Sample.table).
  intros rule d H. inversion H. reflexivity.
Defined.

Lemma anonymous_request_to_id_route_witness :
  emitted (App.users Sample.rejecting_verifier (Sample.provider Sample.allow)
             Sample.any_email Sample.unchanged Sample.unchanged Sample.no_details
             Routes.DELETE "/:id" Sample.request) Sample.table =
    [Next;
     Protect (mkOptions "LIVE" "1m" (Some 5) "${role}-rate-limit");
     Next;
     Send 401 (JObj [("error", JStr "Unauthorized");
                     ("message", JStr "Authentication required")])].
Proof.
  apply (anonymous_request_to_id_route Sample.rejecting_verifier (Sample.provider Sample.allow)
           Sample.any_email Sample.unchanged Sample.unchanged Sample.no_details
           Routes.DELETE Sample.request Sample.table).
  - reflexivity.
  - intros rule. exists Sample.allow. split; reflexivity.
Defined.
